(** * Mergington High School activities API (src/app.py)

    A shallow embedding of the activity store of [src/app.py]: the Python
    values the module keeps in memory, the data directory it persists them
    to, and the four handlers over both.

    - Python values are the JSON fragment of Python ([pyval]); a [dict] is an
      association list in insertion order, which is the order [json.dump]
      writes.
    - The module-level global [activities] and the data directory form the
      [world] that every function threads; exceptions are an error monad on
      top of it, with [try/except] and [try/finally] as combinators.
    - The operating system decides what [tempfile.mkstemp], the write through
      the file object, [os.replace] and [os.remove] do; those decisions are
      the [env] argument of every function that reaches [save_activities].
    - [json.dump] / [json.load] belong to the Python standard library, not to
      this repository: they are parameters of the development. *)

From Stdlib Require Import ZArith String List.
From stdpp Require Import gmap strings list fin_maps.

Local Open Scope string_scope.
Local Open Scope Z_scope.

(** ** Python values *)

#[warnings="-register-all"]
Inductive pyval : Type :=
| PyNone
| PyBool (b : bool)
| PyInt (z : Z)
| PyFloat (bits : Z)          (* a binary64, by its bit pattern *)
| PyStr (s : string)
| PyList (l : list pyval)
| PyDict (d : list (string * pyval)).

(** Exceptions the module can meet. [HTTPException] is what the handlers
    raise on purpose; every other one reaches the client as a 500. *)
Inductive exn : Type :=
| HTTPException (status_code : Z) (detail : string)
| OSError
| JSONDecodeError
| TypeError
| KeyError
| AttributeError
| ValueError.

Inductive result (A : Type) : Type :=
| Ok (a : A)
| Raise (e : exn).
Arguments Ok {A} a.
Arguments Raise {A} e.

(** *** Dictionaries as association lists *)

Fixpoint alookup {V : Type} (k : string) (d : list (string * V)) : option V :=
  match d with
  | [] => None
  | (k', v) :: d' => if String.eqb k k' then Some v else alookup k d'
  end.

(** [d[k] = v] for a key that is present: the first binding is replaced in
    place, the position of the key is kept. *)
Fixpoint aupdate {V : Type} (k : string) (v : V) (d : list (string * V))
  : list (string * V) :=
  match d with
  | [] => []
  | (k', v') :: d' =>
      if String.eqb k k' then (k', v) :: d' else (k', v') :: aupdate k v d'
  end.

(** [x == s] for a Python string [s]: only a string compares equal to it. *)
Definition py_eq_str (s : string) (x : pyval) : bool :=
  match x with
  | PyStr t => String.eqb s t
  | _ => false
  end.

(** [sub in s] on two strings. *)
Fixpoint is_substring (sub s : string) : bool :=
  String.prefix sub s
  || match s with
     | EmptyString => false
     | String _ s' => is_substring sub s'
     end.

(** [s in c] for a string [s]. *)
Definition py_contains (s : string) (c : pyval) : result bool :=
  match c with
  | PyDict d => Ok (bool_decide (is_Some (alookup s d)))
  | PyList l => Ok (existsb (py_eq_str s) l)
  | PyStr t => Ok (is_substring s t)
  | _ => Raise TypeError
  end.

(** [c[s]] for a string [s]. *)
Definition py_getitem (s : string) (c : pyval) : result pyval :=
  match c with
  | PyDict d =>
      match alookup s d with
      | Some v => Ok v
      | None => Raise KeyError
      end
  | _ => Raise TypeError
  end.

(** [c.append(s)]: the list after the call. *)
Definition py_append (s : string) (c : pyval) : result pyval :=
  match c with
  | PyList l => Ok (PyList (l ++ [PyStr s]))
  | _ => Raise AttributeError
  end.

(** [list.remove]: drops the first element equal to [s]. *)
Fixpoint remove_first (s : string) (l : list pyval) : option (list pyval) :=
  match l with
  | [] => None
  | x :: l' =>
      if py_eq_str s x then Some l'
      else match remove_first s l' with
           | Some r => Some (x :: r)
           | None => None
           end
  end.

(** [c.remove(s)]: the list after the call. *)
Definition py_remove (s : string) (c : pyval) : result pyval :=
  match c with
  | PyList l =>
      match remove_first s l with
      | Some l' => Ok (PyList l')
      | None => Raise ValueError
      end
  | _ => Raise AttributeError
  end.

(** [len(c)]. *)
Definition py_len (c : pyval) : result Z :=
  match c with
  | PyDict d => Ok (Z.of_nat (length d))
  | PyList l => Ok (Z.of_nat (length l))
  | PyStr t => Ok (Z.of_nat (String.length t))
  | _ => Raise TypeError
  end.

(** ** The world: the module global and the data directory *)

(** A path is a directory and a file name in it. *)
Abbreviation path := (string * string)%type.

(** [DATA_DIR = current_dir.parent / "data"], relative to the checkout. *)
Definition DATA_DIR : string := "data".
Definition ACTIVITIES_FILE : path := (DATA_DIR, "activities.json").

(** What the operating system does during one call of [save_activities]. *)
Record env (content : Type) : Type := Env {
  (* the random name parts [mkstemp] draws, in the order it tries them *)
  tmp_names : list string;
  (* [Some c]: the write through the file object fails, leaving [c] behind *)
  write_fault : option content;
  (* [os.replace] raises *)
  replace_fault : bool;
  (* [os.remove] raises *)
  remove_fault : bool
}.
Arguments Env {content}.
Arguments tmp_names {content}.
Arguments write_fault {content}.
Arguments replace_fault {content}.
Arguments remove_fault {content}.

(** The calls that touch the directory, as they are logged. *)
Inductive fs_call : Type :=
| CallMkstemp (p : path)
| CallWrite (p : path) (completed : bool)
| CallReplace (src dst : path) (completed : bool)
| CallRemove (p : path) (completed : bool).

Record world (content : Type) : Type := World {
  activities : pyval;
  files : gmap path content;
  (* every call that touched the directory, oldest first, with the
     directory as a reader finds it right after the call *)
  log : list (fs_call * gmap path content)
}.
Arguments World {content}.
Arguments activities {content}.
Arguments files {content}.
Arguments log {content}.

Section Monad.
Context {content : Type}.

Definition M (A : Type) : Type := world content -> result A * world content.

Definition ret {A} (a : A) : M A := fun w => (Ok a, w).
Definition raise {A} (e : exn) : M A := fun w => (Raise e, w).
Definition bind {A B} (m : M A) (k : A -> M B) : M B :=
  fun w => match m w with
           | (Ok a, w') => k a w'
           | (Raise e, w') => (Raise e, w')
           end.
Definition lift {A} (r : result A) : M A := fun w => (r, w).

(** [try: body  except Exception: handler] *)
Definition try_except {A} (body : M A) (handler : exn -> M A) : M A :=
  fun w => match body w with
           | (Ok a, w') => (Ok a, w')
           | (Raise e, w') => handler e w'
           end.

(** [try: body  finally: cleanup]; an exception of [cleanup] replaces the
    one of [body]. *)
Definition try_finally {A} (body : M A) (cleanup : M unit) : M A :=
  fun w => match body w with
           | (r, w') =>
               match cleanup w' with
               | (Ok _, w'') => (r, w'')
               | (Raise e, w'') => (Raise e, w'')
               end
           end.

Definition get_global : M pyval := fun w => (Ok (activities w), w).
Definition set_global (v : pyval) : M unit :=
  fun w => (Ok tt, World v (files w) (log w)).

(** One call on the directory: the new directory is logged. *)
Definition fs_step (c : fs_call) (fs : gmap path content) : M unit :=
  fun w => (Ok tt, World (activities w) fs (log w ++ [(c, fs)])).
End Monad.

Declare Scope py_scope.
Delimit Scope py_scope with py.
Notation "'let*' x := m 'in' k" := (bind m (fun x => k))
  (at level 10, x name, m at level 100, k at level 200) : py_scope.
Notation "'exec' m 'in' k" := (bind m (fun _ => k))
  (at level 10, m at level 100, k at level 200) : py_scope.
Local Open Scope py_scope.

(** ** The default activities *)

Definition activity_record (description schedule : string)
    (max_participants : Z) (participants : list string) : pyval :=
  PyDict [("description", PyStr description);
          ("schedule", PyStr schedule);
          ("max_participants", PyInt max_participants);
          ("participants", PyList (PyStr <$> participants))].

Definition _default_activities : pyval :=
  PyDict [
    ("Chess Club", activity_record
       "Learn strategies and compete in chess tournaments"
       "Fridays, 3:30 PM - 5:00 PM" 12
       ["michael@mergington.edu"; "daniel@mergington.edu"]);
    ("Programming Class", activity_record
       "Learn programming fundamentals and build software projects"
       "Tuesdays and Thursdays, 3:30 PM - 4:30 PM" 20
       ["emma@mergington.edu"; "sophia@mergington.edu"]);
    ("Gym Class", activity_record
       "Physical education and sports activities"
       "Mondays, Wednesdays, Fridays, 2:00 PM - 3:00 PM" 30
       ["john@mergington.edu"; "olivia@mergington.edu"]);
    ("Soccer Team", activity_record
       "Join the school soccer team and compete in matches"
       "Tuesdays and Thursdays, 4:00 PM - 5:30 PM" 22
       ["liam@mergington.edu"; "noah@mergington.edu"]);
    ("Basketball Team", activity_record
       "Practice and play basketball with the school team"
       "Wednesdays and Fridays, 3:30 PM - 5:00 PM" 15
       ["ava@mergington.edu"; "mia@mergington.edu"]);
    ("Art Club", activity_record
       "Explore your creativity through painting and drawing"
       "Thursdays, 3:30 PM - 5:00 PM" 15
       ["amelia@mergington.edu"; "harper@mergington.edu"]);
    ("Drama Club", activity_record
       "Act, direct, and produce plays and performances"
       "Mondays and Wednesdays, 4:00 PM - 5:30 PM" 20
       ["ella@mergington.edu"; "scarlett@mergington.edu"]);
    ("Math Club", activity_record
       "Solve challenging problems and participate in math competitions"
       "Tuesdays, 3:30 PM - 4:30 PM" 10
       ["james@mergington.edu"; "benjamin@mergington.edu"]);
    ("Debate Team", activity_record
       "Develop public speaking and argumentation skills"
       "Fridays, 4:00 PM - 5:30 PM" 12
       ["charlotte@mergington.edu"; "henry@mergington.edu"])
  ].

(** [c[k] = v] on a dict that has the key; the handlers reach it only after
    [c[k]] was read, so no other case arises. *)
Definition py_setitem (k : string) (v : pyval) (c : pyval) : pyval :=
  match c with
  | PyDict d => PyDict (aupdate k v d)
  | _ => c
  end.

(** ** The program *)

Section App.
(** The standard library's [json]: what a file holds, the text of a value
    ([json.dump(data, f, indent=2, ensure_ascii=False)]) and the value of a
    text ([json.load], [None] when it raises). *)
Context {content : Type}.
Variable empty_file : content.
Variable json_dumps : pyval -> content.
Variable json_loads : content -> option pyval.

Local Abbreviation M := (@M content).
Local Abbreviation env := (env content).

(** *** Operating-system calls *)

Definition os_path_exists (p : path) : M bool :=
  fun w => (Ok (bool_decide (is_Some (files w !! p))), w).

(** The first name [mkstemp] draws that is not taken. *)
Fixpoint free_name (fs : gmap path content) (dir prefix suffix : string)
    (names : list string) : option path :=
  match names with
  | [] => None
  | n :: names' =>
      let p := (dir, prefix ++ n ++ suffix) in
      if bool_decide (is_Some (fs !! p))
      then free_name fs dir prefix suffix names'
      else Some p
  end.

(** [tempfile.mkstemp(dir=, prefix=, suffix=)]: creates an empty file under
    a fresh name, or raises [FileExistsError] when it finds none. *)
Definition mkstemp (dir prefix suffix : string) (names : list string)
  : M path :=
  fun w =>
    match free_name (files w) dir prefix suffix names with
    | Some p =>
        (exec fs_step (CallMkstemp p) (<[p := empty_file]> (files w)) in
         ret p) w
    | None => (Raise OSError, w)
    end.

(** [with os.fdopen(fd, "w") as f: json.dump(data, f, ...)] *)
Definition write_json (data : pyval) (p : path) (fault : option content)
  : M unit :=
  fun w =>
    match fault with
    | None =>
        fs_step (CallWrite p true) (<[p := json_dumps data]> (files w)) w
    | Some partial =>
        (exec fs_step (CallWrite p false) (<[p := partial]> (files w)) in
         raise OSError) w
    end.

(** [os.replace(src, dst)]: one step for every reader of the directory. *)
Definition os_replace (src dst : path) (fault : bool) : M unit :=
  fun w =>
    match files w !! src with
    | Some c =>
        if fault
        then (exec fs_step (CallReplace src dst false) (files w) in
              raise OSError) w
        else fs_step (CallReplace src dst true)
               (<[dst := c]> (delete src (files w))) w
    | None =>
        (exec fs_step (CallReplace src dst false) (files w) in
         raise OSError) w
    end.

(** [os.remove(p)] *)
Definition os_remove (p : path) (fault : bool) : M unit :=
  fun w =>
    if fault || negb (bool_decide (is_Some (files w !! p)))
    then (exec fs_step (CallRemove p false) (files w) in raise OSError) w
    else fs_step (CallRemove p true) (delete p (files w)) w.

(** [with p.open("r") as f: return json.load(f)] *)
Definition read_json (p : path) : M pyval :=
  fun w =>
    match files w !! p with
    | Some c =>
        match json_loads c with
        | Some v => (Ok v, w)
        | None => (Raise JSONDecodeError, w)
        end
    | None => (Raise OSError, w)
    end.

(** *** [save_activities] (lines 104-116) *)

Definition save_activities (data : pyval) (e : env) : M unit :=
  let* tmp_path := mkstemp DATA_DIR "activities" ".tmp" (tmp_names e) in
  try_finally
    (exec write_json data tmp_path (write_fault e) in
     os_replace tmp_path ACTIVITIES_FILE (replace_fault e))
    (let* still_there := os_path_exists tmp_path in
     if still_there
     then try_except (os_remove tmp_path (remove_fault e))
            (fun x => match x with OSError => ret tt | _ => raise x end)
     else ret tt).

(** *** [load_activities] (lines 89-101) *)

Definition load_activities (e : env) : M pyval :=
  let* there := os_path_exists ACTIVITIES_FILE in
  if negb there then
    let data := _default_activities in
    exec save_activities data e in
    ret data
  else
    try_except (read_json ACTIVITIES_FILE)
      (fun _ =>
         let data := _default_activities in
         exec save_activities data e in
         ret data).

(** [activities = load_activities()] at import time (line 119). *)
Definition startup (e : env) : M unit :=
  let* data := load_activities e in
  set_global data.

(** *** The handlers *)

Definition get_activities : M pyval := get_global.

Definition signup_for_activity (activity_name email : string) (e : env)
  : M pyval :=
  let* acts := get_global in
  let* known := lift (py_contains activity_name acts) in
  if negb known then raise (HTTPException 404 "Activity not found") else
  let* activity := lift (py_getitem activity_name acts) in
  let* roster := lift (py_getitem "participants" activity) in
  let* signed := lift (py_contains email roster) in
  if signed then raise (HTTPException 400 "Student is already signed up") else
  let* roster' := lift (py_append email roster) in
  exec set_global
    (py_setitem activity_name
       (py_setitem "participants" roster' activity) acts) in
  let* acts' := get_global in
  exec save_activities acts' e in
  ret (PyDict [("message",
                PyStr ("Signed up " ++ email ++ " for " ++ activity_name))]).

Definition unregister_from_activity (activity_name email : string) (e : env)
  : M pyval :=
  let* acts := get_global in
  let* known := lift (py_contains activity_name acts) in
  if negb known then raise (HTTPException 404 "Activity not found") else
  let* activity := lift (py_getitem activity_name acts) in
  let* roster := lift (py_getitem "participants" activity) in
  let* signed := lift (py_contains email roster) in
  if negb signed
  then raise (HTTPException 400 "Student is not signed up for this activity")
  else
  let* roster' := lift (py_remove email roster) in
  exec set_global
    (py_setitem activity_name
       (py_setitem "participants" roster' activity) acts) in
  let* acts' := get_global in
  exec save_activities acts' e in
  ret (PyDict [("message",
                PyStr ("Unregistered " ++ email ++ " from " ++ activity_name))]).

Definition reload_activities (e : env) : M pyval :=
  let* data := load_activities e in
  exec set_global data in
  let* acts := get_global in
  let* count := lift (py_len acts) in
  ret (PyDict [("message", PyStr "Activities reloaded");
               ("count", PyInt count)]).

End App.

(** ** A reference [json]

    Files seen through [json.load]: a well-formed document is identified with
    the value it denotes, anything else is text that does not parse. *)
Module DocCodec.
Inductive document : Type :=
| Json (v : pyval)
| Text (raw : string).

Definition dumps (v : pyval) : document := Json v.
Definition loads (d : document) : option pyval :=
  match d with
  | Json v => Some v
  | Text _ => None
  end.
Definition empty : document := Text "".
End DocCodec.

(** ** Reading a store *)

Definition activity_of (store : pyval) (name : string) : option pyval :=
  match store with
  | PyDict d => alookup name d
  | _ => None
  end.

Definition field_of (store : pyval) (name field : string) : option pyval :=
  match activity_of store name with
  | Some (PyDict f) => alookup field f
  | _ => None
  end.

Definition participants_of (store : pyval) (name : string)
  : option (list pyval) :=
  match field_of store name "participants" with
  | Some (PyList l) => Some l
  | _ => None
  end.

Definition keys_of (store : pyval) : list string :=
  match store with
  | PyDict d => d.*1
  | _ => []
  end.

(** The store of the data model: a dict of activity records, each of which
    is a dict with a list under ["participants"]. *)
Definition store_shaped (store : pyval) : Prop :=
  (exists d, store = PyDict d) /\
  forall name a, activity_of store name = Some a ->
    exists f l, a = PyDict f /\ alookup "participants" f = Some (PyList l).

(** The directory lets [save_activities] through. *)
Definition save_ok {content} (e : env content) (fs : gmap path content) : Prop :=
  is_Some (free_name fs DATA_DIR "activities" ".tmp" (tmp_names e)) /\
  write_fault e = None /\ replace_fault e = false.

(** The store with the participant list of [name] replaced by [roster]. *)
Definition with_roster (name : string) (roster : list pyval) (store : pyval)
  : pyval :=
  match store with
  | PyDict d =>
      match alookup name d with
      | Some (PyDict f) =>
          PyDict (aupdate name
                    (PyDict (aupdate "participants" (PyList roster) f)) d)
      | _ => store
      end
  | _ => store
  end.

(** What a handler answers once the directory has been written. *)
Definition answer {content} (body : pyval)
    (saved : result unit * world content) : result pyval * world content :=
  match saved with
  | (Ok _, w) => (Ok body, w)
  | (Raise x, w) => (Raise x, w)
  end.

(** Every state of the directory in [steps] shows, under the canonical name,
    what was there before the save or the complete new text. *)
Definition canonical_intact {content} (json_dumps : pyval -> content)
    (data : pyval) (w : world content)
    (steps : list (fs_call * gmap path content)) : Prop :=
  forall c fs, (c, fs) ∈ steps ->
    fs !! ACTIVITIES_FILE = files w !! ACTIVITIES_FILE \/
    fs !! ACTIVITIES_FILE = Some (json_dumps data).

(** The bodies of the two confirmations. *)
Definition signed_up_message (activity_name email : string) : pyval :=
  PyDict [("message", PyStr ("Signed up " ++ email ++ " for " ++ activity_name))].
Definition unregistered_message (activity_name email : string) : pyval :=
  PyDict [("message",
           PyStr ("Unregistered " ++ email ++ " from " ++ activity_name))].

(** How often [email] occurs in a roster. *)
Definition roster_count (email : string) (roster : list pyval) : nat :=
  length (List.filter (py_eq_str email) roster).

(** No roster of the store lists anyone twice. *)
Definition no_duplicate_rosters (store : pyval) : Prop :=
  forall name roster, participants_of store name = Some roster -> NoDup roster.

(** The body of the answer of [reload_activities]. *)
Definition reloaded_message (count : Z) : pyval :=
  PyDict [("message", PyStr "Activities reloaded"); ("count", PyInt count)].

(** The values [json] writes and reads back unchanged: no float, and no
    key twice in a dict. *)
Fixpoint json_exact (v : pyval) : Prop :=
  match v with
  | PyFloat _ => False
  | PyList l =>
      (fix all (l : list pyval) : Prop :=
         match l with
         | [] => True
         | x :: l' => json_exact x /\ all l'
         end) l
  | PyDict d =>
      NoDup d.*1 /\
      (fix all (d : list (string * pyval)) : Prop :=
         match d with
         | [] => True
         | (_, x) :: d' => json_exact x /\ all d'
         end) d
  | _ => True
  end.

(** *** The typed view of the data model *)

Record Activity : Type := {
  description : string;
  schedule : string;
  max_participants : Z;
  participants : list string
}.

Definition activity_to_py (a : Activity) : pyval :=
  activity_record (description a) (schedule a) (max_participants a)
    (participants a).

(** A mapping from names to activities, as the dict that holds it. *)
Definition store_of_map (m : gmap string Activity) : pyval :=
  PyDict ((fun kv => (kv.1, activity_to_py kv.2)) <$> map_to_list m).

(** [store_shaped], decided. *)
Definition is_store (store : pyval) : bool :=
  match store with
  | PyDict d =>
      forallb (fun kv : string * pyval =>
                 match kv.2 with
                 | PyDict f =>
                     match alookup "participants" f with
                     | Some (PyList _) => true
                     | _ => false
                     end
                 | _ => false
                 end) d
  | _ => false
  end.

(** ** A school on the reference [json] *)
Module School.
Import DocCodec.

(** A directory and a disk that behave: one random name suffices. *)
Definition calm : env document := Env ["k3f9x2"] None false false.

(** The disk fills up while the temporary file is written. *)
Definition disk_full : env document := Env ["k3f9x2"] (Some (Text "{")) false false.

(** The write fails and so does the removal of the temporary file. *)
Definition stuck : env document := Env ["k3f9x2"] (Some (Text "{")) false true.

(** Before the first start: nothing loaded, an empty data directory. *)
Definition blank : world document := World PyNone ∅ [].

(** After a start on the defaults. *)
Definition fresh : world document :=
  World _default_activities {[ACTIVITIES_FILE := Json _default_activities]} [].

(** A data directory whose file holds the JSON text [[]]. *)
Definition listed : world document :=
  World PyNone {[ACTIVITIES_FILE := Json (PyList [])]} [].

(** A club whose roster has reached its capacity of one. *)
Definition full_club : world document :=
  World (PyDict [("Go Club", activity_record "Play go" "Mondays" 1 ["ana@mergington.edu"])])
        ∅ [].

(** The same club in the typed view. *)
Definition go_map : gmap string Activity :=
  {["Go Club" := {| description := "Play go"; schedule := "Mondays";
                    max_participants := 1;
                    participants := ["ana@mergington.edu"] |}]}.

(** The typed club, saved. *)
Definition go_saved : world document :=
  World (store_of_map go_map)
        {[ACTIVITIES_FILE := dumps (store_of_map go_map)]} [].

Definition signup := signup_for_activity empty dumps.
Definition unregister := unregister_from_activity empty dumps.
Definition save := save_activities empty dumps.
Definition load := load_activities empty dumps loads.
Definition reload := reload_activities empty dumps loads.
End School.

(** ** Requests

    The two routes that change the store ([POST .../signup] and
    [DELETE .../unregister], lines 132 and 155), and a server that takes
    them one after the other. *)
Inductive request : Type :=
| Signup (activity_name email : string)
| Unregister (activity_name email : string).

Section Serving.
Context {content : Type}.
Variable empty_file : content.
Variable json_dumps : pyval -> content.

Definition serve (r : request) (e : env content) : @M content pyval :=
  match r with
  | Signup activity_name email =>
      signup_for_activity empty_file json_dumps activity_name email e
  | Unregister activity_name email =>
      unregister_from_activity empty_file json_dumps activity_name email e
  end.

(** The world after a run of requests, each with the weather of its save. *)
Fixpoint serve_all (rs : list (request * env content)) (w : world content)
  : world content :=
  match rs with
  | [] => w
  | (r, e) :: rs' => serve_all rs' (serve r e w).2
  end.
End Serving.

(** ** More days at the school *)
Module SchoolDays.
Import DocCodec School.

(** The data directory with a file of somebody else next to ours. *)
Definition shared : world document :=
  World _default_activities
        {[ACTIVITIES_FILE := Json _default_activities;
          (DATA_DIR, "notes.txt") := Text "remember the milk"]} [].

(** A record that somebody wrote by hand, without its roster. *)
Definition rosterless : world document :=
  World (PyDict [("Go Club", PyDict [("description", PyStr "Play go")])]) ∅ [].

(** A roster that a hand-edited file lists somebody twice in. *)
Definition doubled : world document :=
  World (PyDict [("Go Club",
                  activity_record "Play go" "Mondays" 5
                    ["ana@mergington.edu"; "bo@mergington.edu";
                     "ana@mergington.edu"])]) ∅ [].

(** The canonical file holds the JSON text [null]. *)
Definition nulled : world document :=
  World _default_activities {[ACTIVITIES_FILE := Json PyNone]} [].

(** The canonical file was cut off in the middle. *)
Definition torn : world document :=
  World _default_activities {[ACTIVITIES_FILE := Text "{"]} [].

Definition start := startup empty dumps loads.
End SchoolDays.

(** ** Running the program symbolically *)

Ltac run_py :=
  cbv beta iota zeta delta
    [bind ret raise lift try_except try_finally get_global set_global fs_step
     mkstemp write_json os_replace os_remove os_path_exists read_json
     activities files log orb negb].
Ltac run_fs :=
  repeat (run_py;
          rewrite ?lookup_insert_eq, ?bool_decide_eq_true_2 by eauto).

(** ** Association lists and rosters *)

Lemma alookup_None {V} k (d : list (string * V)) :
  alookup k d = None <-> k ∉ d.*1.
Proof.
  induction d as [|[k' v] d IH]; simpl.
  - split; [intros _ H; inversion H|done].
  - rewrite not_elem_of_cons, <- IH.
    destruct (String.eqb_spec k k'); [|tauto].
    split; [discriminate|]. by intros [? _].
Qed.

Lemma alookup_aupdate_eq {V} k (v : V) d :
  is_Some (alookup k d) -> alookup k (aupdate k v d) = Some v.
Proof.
  induction d as [|[k' v'] d IH]; simpl; [by intros [? ?]|].
  destruct (String.eqb_spec k k') as [->|Hne]; simpl.
  - by rewrite String.eqb_refl.
  - intros H. apply String.eqb_neq in Hne. rewrite Hne. auto.
Qed.

Lemma alookup_aupdate_ne {V} k k' (v : V) d :
  k <> k' -> alookup k' (aupdate k v d) = alookup k' d.
Proof.
  intros Hne. induction d as [|[k0 v0] d IH]; simpl; [done|].
  destruct (String.eqb_spec k k0) as [->|Hk]; simpl.
  - apply String.eqb_neq in Hne. rewrite String.eqb_sym in Hne. by rewrite Hne.
  - by rewrite IH.
Qed.

Lemma aupdate_keys {V} k (v : V) d : (aupdate k v d).*1 = d.*1.
Proof.
  induction d as [|[k0 v0] d IH]; simpl; [done|].
  destruct (String.eqb k k0); simpl; [done|by f_equal].
Qed.

Lemma aupdate_length {V} k (v : V) d : length (aupdate k v d) = length d.
Proof. by rewrite <- (length_fmap fst), aupdate_keys, length_fmap. Qed.

Lemma py_eq_str_true s x : py_eq_str s x = true <-> x = PyStr s.
Proof.
  destruct x; simpl; try (split; [discriminate|congruence]).
  rewrite String.eqb_eq. split; congruence.
Qed.

Lemma existsb_py_eq_str s l : existsb (py_eq_str s) l = true <-> PyStr s ∈ l.
Proof.
  rewrite existsb_exists. split.
  - intros (x & Hin & ->%py_eq_str_true). by apply list_elem_of_In.
  - intros Hin. exists (PyStr s). split; [by apply list_elem_of_In|].
    by apply py_eq_str_true.
Qed.

Lemma existsb_py_eq_str_false s l :
  existsb (py_eq_str s) l = false <-> PyStr s ∉ l.
Proof. rewrite <- existsb_py_eq_str. by destruct (existsb _ _). Qed.

Lemma remove_first_Some s l :
  PyStr s ∈ l ->
  exists l1 l2, l = (l1 ++ (PyStr s :: l2))%list /\ (PyStr s ∉ l1) /\
                remove_first s l = Some (l1 ++ l2)%list.
Proof.
  induction l as [|x l IH]; [by intros ?%elem_of_nil|].
  intros Hin. simpl. destruct (py_eq_str s x) eqn:Hx.
  - apply py_eq_str_true in Hx as ->. exists [], l. split; [done|].
    split; [apply not_elem_of_nil|done].
  - apply elem_of_cons in Hin as [Heq|Hin].
    { symmetry in Heq. apply py_eq_str_true in Heq. congruence. }
    destruct (IH Hin) as (l1 & l2 & -> & Hl1 & ->).
    exists (x :: l1), l2. split; [done|]. split; [|done].
    apply not_elem_of_cons. split; [|done].
    intros Heq. symmetry in Heq. apply py_eq_str_true in Heq. congruence.
Qed.

(** ** [save_activities] *)

Section SaveFacts.
Context {content : Type}.
Variable empty_file : content.
Variable json_dumps : pyval -> content.

Local Abbreviation save := (save_activities empty_file json_dumps).

Lemma free_name_fresh (fs : gmap path content) dir pre suf names p :
  free_name fs dir pre suf names = Some p ->
  fs !! p = None /\ exists n, n ∈ names /\ p = (dir, pre ++ n ++ suf).
Proof.
  induction names as [|n names IH]; simpl; [discriminate|].
  case_bool_decide as Hn.
  - intros Hp. destruct (IH Hp) as (Hfresh & m & Hm & ->).
    split; [done|]. exists m. split; [by right|done].
  - intros [= <-]. split.
    + by apply eq_None_not_Some.
    + exists n. split; [by left|done].
Qed.

Lemma tmp_name_not_canonical n :
  (DATA_DIR, "activities" ++ n ++ ".tmp") <> ACTIVITIES_FILE.
Proof.
  unfold ACTIVITIES_FILE. intros [= H].
  do 6 (destruct n as [|? n]; simpl in H; try discriminate; injection H as ? H). 
Qed.

Lemma free_name_not_canonical (fs : gmap path content) names p :
  free_name fs DATA_DIR "activities" ".tmp" names = Some p ->
  p <> ACTIVITIES_FILE /\ p.1 = DATA_DIR /\ fs !! p = None.
Proof.
  intros Hp. destruct (free_name_fresh _ _ _ _ _ _ Hp) as (Hf & n & _ & ->).
  split; [apply tmp_name_not_canonical|done].
Qed.

Lemma save_activities_run data e w :
  save data e w =
  match free_name (files w) DATA_DIR "activities" ".tmp" (tmp_names e) with
  | None => (Raise OSError, w)
  | Some tmp =>
      let fs1 := <[tmp := empty_file]> (files w) in
      let s1 := (CallMkstemp tmp, fs1) in
      match write_fault e with
      | Some partial =>
          let fs2 := <[tmp := partial]> fs1 in
          let s2 := (CallWrite tmp false, fs2) in
          if remove_fault e
          then (Raise OSError,
                World (activities w) fs2
                  (log w ++ [s1; s2; (CallRemove tmp false, fs2)]))
          else (Raise OSError,
                World (activities w) (delete tmp fs2)
                  (log w ++ [s1; s2; (CallRemove tmp true, delete tmp fs2)]))
      | None =>
          let fs2 := <[tmp := json_dumps data]> fs1 in
          let s2 := (CallWrite tmp true, fs2) in
          if replace_fault e then
            let s3 := (CallReplace tmp ACTIVITIES_FILE false, fs2) in
            if remove_fault e
            then (Raise OSError,
                  World (activities w) fs2
                    (log w ++ [s1; s2; s3; (CallRemove tmp false, fs2)]))
            else (Raise OSError,
                  World (activities w) (delete tmp fs2)
                    (log w ++ [s1; s2; s3;
                               (CallRemove tmp true, delete tmp fs2)]))
          else
            let fs3 := <[ACTIVITIES_FILE := json_dumps data]> (delete tmp fs2) in
            (Ok tt,
             World (activities w) fs3
               (log w ++ [s1; s2; (CallReplace tmp ACTIVITIES_FILE true, fs3)]))
      end
  end.
Proof.
  unfold save_activities, bind at 1, mkstemp.
  destruct (free_name _ _ _ _ _) as [tmp|] eqn:Htmp; [|done].
  destruct (free_name_not_canonical _ _ _ Htmp) as (Hne & _ & _).
  destruct w as [acts fs lg].
  destruct (write_fault e) as [partial|] eqn:Hw; run_py.
  - destruct (remove_fault e); run_fs; by rewrite <- !app_assoc.
  - run_fs. destruct (replace_fault e); run_fs.
    + destruct (remove_fault e); run_fs; by rewrite <- !app_assoc.
    + rewrite lookup_insert_ne, lookup_delete_eq by done.
      rewrite bool_decide_eq_false_2 by (by intros [? ?]).
      by rewrite <- !app_assoc.
Qed.
End SaveFacts.

Section SaveTheorems.
Context {content : Type}.
Variable empty_file : content.
Variable json_dumps : pyval -> content.

Local Abbreviation save := (save_activities empty_file json_dumps).

Lemma tmp_files_cleaned (fs : gmap path content) tmp c1 c2 :
  fs !! tmp = None -> delete tmp (<[tmp := c1]> (<[tmp := c2]> fs)) = fs.
Proof. intros H. by rewrite insert_insert_eq, delete_insert_id. Qed.

Lemma tmp_files_replaced (fs : gmap path content) tmp c1 c2 c :
  fs !! tmp = None -> tmp <> ACTIVITIES_FILE ->
  <[ACTIVITIES_FILE := c]> (delete tmp (<[tmp := c1]> (<[tmp := c2]> fs)))
  = <[ACTIVITIES_FILE := c]> fs.
Proof. intros H _. by rewrite tmp_files_cleaned. Qed.

(** A save that goes through leaves the new text under the canonical name
    and nothing else changed. *)
Lemma save_activities_ok data e w :
  save_ok e (files w) ->
  exists steps,
    save data e w =
    (Ok tt, World (activities w)
              (<[ACTIVITIES_FILE := json_dumps data]> (files w))
              (log w ++ steps)).
Proof.
  intros ([tmp Htmp] & Hw & Hr). rewrite save_activities_run, Htmp, Hw, Hr.
  destruct (free_name_not_canonical _ _ _ Htmp) as (Hne & _ & Hfresh).
  cbv zeta. rewrite tmp_files_replaced by done. eauto.
Qed.

Lemma save_activities_ok_inv data e w :
  (save data e w).1 = Ok tt -> save_ok e (files w).
Proof.
  rewrite save_activities_run. unfold save_ok.
  destruct (free_name _ _ _ _ _) as [tmp|]; [|done]. cbv zeta.
  destruct (write_fault e), (replace_fault e), (remove_fault e); naive_solver.
Qed.

Lemma save_activities_raises data e w x :
  (save data e w).1 = Raise x -> x = OSError.
Proof.
  rewrite save_activities_run.
  destruct (free_name _ _ _ _ _) as [tmp|]; cbv zeta.
  - destruct (write_fault e), (replace_fault e), (remove_fault e);
      simpl; congruence.
  - simpl; congruence.
Qed.

Lemma save_activities_fails data e w :
  ~ save_ok e (files w) -> (save data e w).1 = Raise OSError.
Proof.
  intros Hno. destruct (save data e w).1 as [[]|x] eqn:Hr.
  - by apply save_activities_ok_inv in Hr.
  - by apply save_activities_raises in Hr as ->.
Qed.

Lemma save_activities_global data e w :
  activities (save data e w).2 = activities w.
Proof.
  rewrite save_activities_run.
  destruct (free_name _ _ _ _ _) as [tmp|]; [|done]. cbv zeta.
  by destruct (write_fault e), (replace_fault e), (remove_fault e).
Qed.

(** C4, as the code has it. [save_activities] never touches the module
    global. If [mkstemp] finds no free name it raises and nothing has
    happened. Otherwise the temporary file is new, lies in the directory of
    the canonical file and is not the canonical file; at every step a
    reader of the directory finds under the canonical name what was there
    before or the complete new text. When the save returns, its last step
    is the [os.replace], the directory differs from the old one only in
    the canonical file, which holds the new text, and no [os.remove] was
    called. When it raises, its last step is the [os.remove] of the
    temporary file: if that removal goes through the directory is as it was
    before the save, and if the removal fails too the error is swallowed
    and the temporary file is all that the save leaves behind. *)
Theorem save_activities_atomic data e w :
  let r := (save data e w).1 in
  let w' := (save data e w).2 in
  exists steps,
    log w' = (log w ++ steps)%list /\
    activities w' = activities w /\
    canonical_intact json_dumps data w steps /\
    match free_name (files w) DATA_DIR "activities" ".tmp" (tmp_names e) with
    | None => r = Raise OSError /\ w' = w
    | Some tmp =>
        tmp.1 = ACTIVITIES_FILE.1 /\ tmp <> ACTIVITIES_FILE /\
        files w !! tmp = None /\
        (exists fs1, head steps = Some (CallMkstemp tmp, fs1)) /\
        match r with
        | Ok _ =>
            (exists fs1 fs2,
                steps = [(CallMkstemp tmp, fs1); (CallWrite tmp true, fs2);
                         (CallReplace tmp ACTIVITIES_FILE true, files w')] /\
                fs2 !! tmp = Some (json_dumps data)) /\
            files w' = <[ACTIVITIES_FILE := json_dumps data]> (files w) /\
            files w' !! tmp = None /\
            forall p b fs, (CallRemove p b, fs) ∉ steps
        | Raise x =>
            x = OSError /\
            (exists b fs, last steps = Some (CallRemove tmp b, fs)) /\
            if remove_fault e
            then is_Some (files w' !! tmp) /\ delete tmp (files w') = files w
            else files w' = files w
        end
    end.
Proof.
  cbv zeta. rewrite save_activities_run.
  destruct (free_name _ _ _ _ _) as [tmp|] eqn:Htmp.
  2:{ exists []. rewrite app_nil_r. repeat split. intros ?? H. inversion H. }
  destruct (free_name_not_canonical _ _ _ Htmp) as (Hne & Hdir & Hfresh).
  cbv zeta.
  destruct (write_fault e) as [partial|], (replace_fault e), (remove_fault e);
    cbn [fst snd log files activities];
    (eexists; split; [reflexivity|]); (split; [reflexivity|]);
    (split; [|repeat split; eauto]).
  all: rewrite ?tmp_files_cleaned, ?tmp_files_replaced, ?insert_insert_eq,
         ?delete_insert_id, ?lookup_insert_eq by done; eauto.
  all: try (intros c fs Hin; rewrite !elem_of_cons, elem_of_nil in Hin;
            destruct_or!; simplify_eq;
            rewrite ?lookup_insert_eq, ?lookup_insert_ne by done; by auto).
  all: try (intros p b fs Hin; rewrite !elem_of_cons, elem_of_nil in Hin;
            by destruct_or!).
  all: try (by rewrite lookup_insert_ne by done).
  all: do 2 eexists; split; [reflexivity|]; by rewrite lookup_insert_eq.
Qed.
End SaveTheorems.

(** ** Rosters *)

Lemma participants_of_inv store A l :
  participants_of store A = Some l ->
  exists d f, store = PyDict d /\ alookup A d = Some (PyDict f) /\
              alookup "participants" f = Some (PyList l).
Proof.
  unfold participants_of, field_of, activity_of. intros H.
  repeat case_match; simplify_eq. eauto.
Qed.

Lemma participants_of_dict d A f l :
  alookup A d = Some (PyDict f) ->
  alookup "participants" f = Some (PyList l) ->
  participants_of (PyDict d) A = Some l.
Proof.
  intros HA Hf. unfold participants_of, field_of, activity_of. by rewrite HA, Hf.
Qed.

Lemma with_roster_keys A l store :
  keys_of (with_roster A l store) = keys_of store.
Proof.
  destruct store as [| | | | | |d]; try done. simpl.
  destruct (alookup A d) as [[| | | | | |f]|]; try done.
  simpl. apply aupdate_keys.
Qed.

Lemma with_roster_other A l store B :
  B <> A -> activity_of (with_roster A l store) B = activity_of store B.
Proof.
  intros Hne. destruct store as [| | | | | |d]; try done. simpl.
  destruct (alookup A d) as [[| | | | | |f]|]; try done.
  simpl. by apply alookup_aupdate_ne.
Qed.

Lemma with_roster_field A l store B fld :
  fld <> "participants" ->
  field_of (with_roster A l store) B fld = field_of store B fld.
Proof.
  intros Hfld. destruct (decide (B = A)) as [->|Hne].
  2:{ unfold field_of. by rewrite with_roster_other. }
  destruct store as [| | | | | |d]; try done.
  unfold field_of, with_roster, activity_of.
  destruct (alookup A d) as [[| | | | | |f]|] eqn:HA; rewrite ?HA; try done.
  rewrite alookup_aupdate_eq by eauto.
  by apply alookup_aupdate_ne.
Qed.

Lemma with_roster_participants A l store l0 :
  participants_of store A = Some l0 ->
  participants_of (with_roster A l store) A = Some l.
Proof.
  intros (d & f & -> & HA & Hf)%participants_of_inv.
  unfold with_roster. rewrite HA.
  eapply participants_of_dict.
  - apply alookup_aupdate_eq. eauto.
  - apply alookup_aupdate_eq. eauto.
Qed.

Lemma with_roster_participants_other A l store B :
  B <> A ->
  participants_of (with_roster A l store) B = participants_of store B.
Proof.
  intros Hne. unfold participants_of, field_of. by rewrite with_roster_other.
Qed.

Lemma roster_count_absent E l : PyStr E ∉ l -> roster_count E l = 0%nat.
Proof.
  unfold roster_count. induction l as [|x l IH]; [done|].
  intros [Hx Hl]%not_elem_of_cons. simpl.
  destruct (py_eq_str E x) eqn:Heq.
  - apply py_eq_str_true in Heq. congruence.
  - auto.
Qed.

Lemma roster_count_app E l1 l2 :
  roster_count E (l1 ++ l2) = (roster_count E l1 + roster_count E l2)%nat.
Proof. unfold roster_count. by rewrite List.filter_app, length_app. Qed.

Lemma roster_count_self E : roster_count E [PyStr E] = 1%nat.
Proof. unfold roster_count. simpl. by rewrite String.eqb_refl. Qed.

(** ** The handlers *)

Ltac run_handler :=
  cbv beta iota zeta delta
    [bind ret raise lift get_global set_global
     py_contains py_getitem py_append py_remove py_setitem negb
     activities files log].

Section Handlers.
Context {content : Type}.
Variable empty_file : content.
Variable json_dumps : pyval -> content.

Local Abbreviation save := (save_activities empty_file json_dumps).
Local Abbreviation signup := (signup_for_activity empty_file json_dumps).
Local Abbreviation unregister := (unregister_from_activity empty_file json_dumps).

Lemma world_eta (w : world content) :
  World (activities w) (files w) (log w) = w.
Proof. by destruct w. Qed.

Lemma signup_unknown A E e w d :
  activities w = PyDict d -> alookup A d = None ->
  signup A E e w = (Raise (HTTPException 404 "Activity not found"), w).
Proof.
  destruct w as [acts fs lg]. cbn [activities]. intros -> HA.
  unfold signup_for_activity. run_handler.
  by rewrite HA, bool_decide_eq_false_2 by (by intros [? ?]).
Qed.

Lemma signup_signed A E e w d f l :
  activities w = PyDict d -> alookup A d = Some (PyDict f) ->
  alookup "participants" f = Some (PyList l) ->
  existsb (py_eq_str E) l = true ->
  signup A E e w =
  (Raise (HTTPException 400 "Student is already signed up"), w).
Proof.
  destruct w as [acts fs lg]. cbn [activities]. intros -> HA Hf HE.
  unfold signup_for_activity. run_handler.
  rewrite HA, bool_decide_eq_true_2 by eauto. run_handler.
  by rewrite Hf, HE.
Qed.

Lemma signup_commits A E e w d f l :
  activities w = PyDict d -> alookup A d = Some (PyDict f) ->
  alookup "participants" f = Some (PyList l) ->
  existsb (py_eq_str E) l = false ->
  let store' := with_roster A (l ++ [PyStr E]) (activities w) in
  signup A E e w =
  answer (signed_up_message A E)
    (save store' e (World store' (files w) (log w))).
Proof.
  destruct w as [acts fs lg]. cbn [activities files log]. intros -> HA Hf HE.
  unfold signup_for_activity, with_roster. run_handler.
  rewrite HA, bool_decide_eq_true_2 by eauto. run_handler.
  rewrite Hf, HE. run_handler. unfold answer, signed_up_message.
  by destruct (save _ _ _) as [[[]|x] w'].
Qed.

(** Every other run of [signup_for_activity] raises and leaves the world as
    it was. *)
Lemma signup_inv A E e w :
  (exists x, signup A E e w = (Raise x, w)) \/
  (exists d f l,
      activities w = PyDict d /\ alookup A d = Some (PyDict f) /\
      alookup "participants" f = Some (PyList l) /\
      existsb (py_eq_str E) l = false).
Proof.
  destruct w as [acts fs lg]. unfold signup_for_activity.
  destruct acts as [| | | | t|l|d]; run_handler; eauto.
  - destruct (is_substring A t); run_handler; eauto.
  - destruct (existsb (py_eq_str A) l); run_handler; eauto.
  - destruct (alookup A d) as [a|] eqn:HA.
    2:{ rewrite bool_decide_eq_false_2 by (by intros [? ?]). eauto. }
    rewrite bool_decide_eq_true_2 by eauto. run_handler.
    destruct a as [| | | | |?|f]; run_handler; eauto.
    destruct (alookup "participants" f) as [r|] eqn:Hf; run_handler; eauto.
    destruct r as [| | | | t|l|g]; run_handler; eauto.
    + destruct (is_substring E t); run_handler; eauto.
    + destruct (existsb (py_eq_str E) l) eqn:HE; run_handler; eauto.
      right. by exists d, f, l.
    + destruct (bool_decide _); run_handler; eauto.
Qed.

Lemma unregister_unknown A E e w d :
  activities w = PyDict d -> alookup A d = None ->
  unregister A E e w = (Raise (HTTPException 404 "Activity not found"), w).
Proof.
  destruct w as [acts fs lg]. cbn [activities]. intros -> HA.
  unfold unregister_from_activity. run_handler.
  by rewrite HA, bool_decide_eq_false_2 by (by intros [? ?]).
Qed.

Lemma unregister_unsigned A E e w d f l :
  activities w = PyDict d -> alookup A d = Some (PyDict f) ->
  alookup "participants" f = Some (PyList l) ->
  existsb (py_eq_str E) l = false ->
  unregister A E e w =
  (Raise (HTTPException 400 "Student is not signed up for this activity"), w).
Proof.
  destruct w as [acts fs lg]. cbn [activities]. intros -> HA Hf HE.
  unfold unregister_from_activity. run_handler.
  rewrite HA, bool_decide_eq_true_2 by eauto. run_handler.
  by rewrite Hf, HE.
Qed.

Lemma unregister_commits A E e w d f l1 l2 :
  activities w = PyDict d -> alookup A d = Some (PyDict f) ->
  alookup "participants" f = Some (PyList (l1 ++ PyStr E :: l2)) ->
  PyStr E ∉ l1 ->
  let store' := with_roster A (l1 ++ l2) (activities w) in
  unregister A E e w =
  answer (unregistered_message A E)
    (save store' e (World store' (files w) (log w))).
Proof.
  destruct w as [acts fs lg]. cbn [activities files log]. intros -> HA Hf HE.
  assert (Hin : PyStr E ∈ (l1 ++ PyStr E :: l2)%list)
    by (apply elem_of_app; right; left).
  destruct (remove_first_Some _ _ Hin) as (k1 & k2 & Heq & Hk1 & Hrm).
  assert (k1 = l1 /\ k2 = l2) as [-> ->].
  { clear -Heq HE Hk1. revert k1 Heq Hk1.
    induction l1 as [|x l1 IH]; intros [|y k1] Heq Hk1.
    - by simplify_eq/=.
    - simplify_eq/=. exfalso. apply Hk1. left.
    - simplify_eq/=. exfalso. apply HE. left.
    - injection Heq as -> Heq.
      apply not_elem_of_cons in HE as [_ HE], Hk1 as [_ Hk1].
      by destruct (IH HE _ Heq Hk1) as [-> ->]. }
  unfold unregister_from_activity, with_roster. run_handler.
  rewrite HA, bool_decide_eq_true_2 by eauto. run_handler.
  rewrite Hf. apply existsb_py_eq_str in Hin. rewrite Hin. run_handler.
  rewrite Hrm. unfold answer, unregistered_message.
  by destruct (save _ _ _) as [[[]|x] w'].
Qed.

Lemma unregister_inv A E e w :
  (exists x, unregister A E e w = (Raise x, w)) \/
  (exists d f l,
      activities w = PyDict d /\ alookup A d = Some (PyDict f) /\
      alookup "participants" f = Some (PyList l) /\
      existsb (py_eq_str E) l = true).
Proof.
  destruct w as [acts fs lg]. unfold unregister_from_activity.
  destruct acts as [| | | | t|l|d]; run_handler; eauto.
  - destruct (is_substring A t); run_handler; eauto.
  - destruct (existsb (py_eq_str A) l); run_handler; eauto.
  - destruct (alookup A d) as [a|] eqn:HA.
    2:{ rewrite bool_decide_eq_false_2 by (by intros [? ?]). eauto. }
    rewrite bool_decide_eq_true_2 by eauto. run_handler.
    destruct a as [| | | | |?|f]; run_handler; eauto.
    destruct (alookup "participants" f) as [r|] eqn:Hf; run_handler; eauto.
    destruct r as [| | | | t|l|g]; run_handler; eauto.
    + destruct (is_substring E t); run_handler; eauto.
    + destruct (existsb (py_eq_str E) l) eqn:HE; run_handler; eauto.
      right. by exists d, f, l.
    + destruct (bool_decide _); run_handler; eauto.
Qed.
End Handlers.

(** ** The handlers: outcomes *)

Section HandlerTheorems.
Context {content : Type}.
Variable empty_file : content.
Variable json_dumps : pyval -> content.

Local Abbreviation save := (save_activities empty_file json_dumps).
Local Abbreviation signup := (signup_for_activity empty_file json_dumps).
Local Abbreviation unregister := (unregister_from_activity empty_file json_dumps).

Lemma answer_world body (p : result unit * world content) :
  (answer body p).2 = p.2.
Proof. by destruct p as [[[]|x] w]. Qed.

Lemma answer_ok body (p : result unit * world content) :
  p.1 = Ok tt -> (answer body p).1 = Ok body.
Proof. destruct p as [[[]|x] w]; simpl; congruence. Qed.

Lemma answer_raise body (p : result unit * world content) x :
  (answer body p).1 = Raise x -> p.1 = Raise x.
Proof. destruct p as [[[]|y] w]; simpl; congruence. Qed.

(** The world after a handler has changed a roster and called
    [save_activities]. *)
Lemma committed_world body store e (w : world content) :
  let p := answer body (save store e (World store (files w) (log w))) in
  activities p.2 = store /\
  (forall x, p.1 = Raise x -> x = OSError) /\
  (save_ok e (files w) ->
   p.1 = Ok body /\ files p.2 = <[ACTIVITIES_FILE := json_dumps store]> (files w)).
Proof.
  cbv zeta. rewrite answer_world. split; [|split].
  - by rewrite save_activities_global.
  - intros x Hx%answer_raise. by apply save_activities_raises in Hx.
  - intros Hok.
    destruct (save_activities_ok empty_file json_dumps store e
                (World store (files w) (log w)) Hok) as [steps Hs].
    rewrite Hs. done.
Qed.

Lemma shaped_known store A :
  store_shaped store -> A ∈ keys_of store ->
  exists l, participants_of store A = Some l.
Proof.
  intros [[d ->] Hsh] HA. simpl in HA.
  destruct (alookup A d) as [a|] eqn:Ha.
  - destruct (Hsh A a Ha) as (f & l & -> & Hf). exists l.
    by eapply participants_of_dict.
  - by apply alookup_None in Ha.
Qed.

Lemma participants_of_known store A l :
  participants_of store A = Some l -> A ∈ keys_of store.
Proof.
  intros (d & f & -> & HA & Hf)%participants_of_inv. simpl.
  destruct (decide (A ∈ d.*1)) as [|Hn]; [done|].
  apply alookup_None in Hn. congruence.
Qed.

(** C1. On a store of the data model, [signup_for_activity] answers 404
    exactly when the activity name is not a key of the store and 400 exactly
    when the name is a key and the email is already on its roster (compared
    as a string), both without touching the world; in the remaining case the
    email is appended at the end of that roster, the other entries keeping
    their order, and once [save_activities] goes through the whole store
    is the content of the canonical file and the answer is the confirmation
    message. *)
Theorem signup_for_activity_outcome A E e w :
  store_shaped (activities w) ->
  let r := (signup A E e w).1 in
  let w' := (signup A E e w).2 in
  (r = Raise (HTTPException 404 "Activity not found") <->
     A ∉ keys_of (activities w)) /\
  (r = Raise (HTTPException 400 "Student is already signed up") <->
     A ∈ keys_of (activities w) /\
     exists l, participants_of (activities w) A = Some l /\ PyStr E ∈ l) /\
  (A ∈ keys_of (activities w) ->
     exists l, participants_of (activities w) A = Some l) /\
  (forall status detail, r = Raise (HTTPException status detail) -> w' = w) /\
  (forall l, participants_of (activities w) A = Some l -> PyStr E ∉ l ->
     participants_of (activities w') A = Some (l ++ [PyStr E])%list /\
     activities w' = with_roster A (l ++ [PyStr E]) (activities w) /\
     (save_ok e (files w) ->
        r = Ok (signed_up_message A E) /\
        files w' = <[ACTIVITIES_FILE := json_dumps (activities w')]> (files w))).
Proof.
  intros Hshaped. pose proof Hshaped as [[d Hd] Hsh]. cbv zeta.
  destruct (alookup A d) as [a|] eqn:HA.
  - assert (Hkey : A ∈ keys_of (activities w)).
    { rewrite Hd. simpl. destruct (decide (A ∈ d.*1)) as [|Hn]; [done|].
      apply alookup_None in Hn. congruence. }
    rewrite Hd in Hsh. destruct (Hsh A a HA) as (f & l & -> & Hf).
    assert (Hl : participants_of (activities w) A = Some l)
      by (rewrite Hd; by eapply participants_of_dict).
    destruct (existsb (py_eq_str E) l) eqn:HE.
    + rewrite (signup_signed _ _ A E e w d f l) by done. simpl.
      apply existsb_py_eq_str in HE.
      split; [split; [discriminate|done]|].
      split; [split; [eauto|done]|].
      split; [eauto|]. split; [done|].
      intros l' Hl' Hn. congruence.
    + rewrite (signup_commits _ _ A E e w d f l) by done. cbv zeta.
      apply existsb_py_eq_str_false in HE.
      destruct (committed_world (signed_up_message A E)
                  (with_roster A (l ++ [PyStr E]) (activities w)) e w)
        as (Hacts & Hraise & Hsave).
      split; [split; [intros H%Hraise; discriminate|done]|].
      split; [split; [intros H%Hraise; discriminate|]|].
      { intros (_ & l' & Hl' & Hin). congruence. }
      split; [eauto|].
      split; [intros ?? Hx%Hraise; done|].
      intros l' Hl' _. assert (l' = l) as -> by congruence.
      rewrite Hacts. split; [by eapply with_roster_participants|].
      split; [done|]. done.
  - rewrite (signup_unknown _ _ A E e w d) by done. simpl.
    assert (Hkey : A ∉ keys_of (activities w))
      by (rewrite Hd; by apply alookup_None).
    split; [done|]. split; [split; [discriminate|tauto]|].
    split; [done|]. split; [done|].
    intros l Hl%participants_of_known. done.
Qed.

(** C2. On a store of the data model, [unregister_from_activity] answers 404
    exactly when the activity name is not a key of the store and 400 exactly
    when the name is a key and the email is not on its roster, both without
    touching the store or the directory; in the remaining case exactly the
    first occurrence of the email leaves the roster, and once
    [save_activities] goes through the whole store is the content of the
    canonical file and the answer is the confirmation message. *)
Theorem unregister_from_activity_outcome A E e w :
  store_shaped (activities w) ->
  let r := (unregister A E e w).1 in
  let w' := (unregister A E e w).2 in
  (r = Raise (HTTPException 404 "Activity not found") <->
     A ∉ keys_of (activities w)) /\
  (r = Raise (HTTPException 400 "Student is not signed up for this activity")
   <-> A ∈ keys_of (activities w) /\
       exists l, participants_of (activities w) A = Some l /\ PyStr E ∉ l) /\
  (A ∈ keys_of (activities w) ->
     exists l, participants_of (activities w) A = Some l) /\
  (forall status detail, r = Raise (HTTPException status detail) -> w' = w) /\
  (forall l, participants_of (activities w) A = Some l -> PyStr E ∈ l ->
     exists l1 l2,
       l = (l1 ++ PyStr E :: l2)%list /\ (PyStr E ∉ l1) /\
       participants_of (activities w') A = Some (l1 ++ l2)%list /\
       activities w' = with_roster A (l1 ++ l2) (activities w) /\
       (save_ok e (files w) ->
          r = Ok (unregistered_message A E) /\
          files w' =
            <[ACTIVITIES_FILE := json_dumps (activities w')]> (files w))).
Proof.
  intros Hshaped. pose proof Hshaped as [[d Hd] Hsh]. cbv zeta.
  destruct (alookup A d) as [a|] eqn:HA.
  - assert (Hkey : A ∈ keys_of (activities w)).
    { rewrite Hd. simpl. destruct (decide (A ∈ d.*1)) as [|Hn]; [done|].
      apply alookup_None in Hn. congruence. }
    rewrite Hd in Hsh. destruct (Hsh A a HA) as (f & l & -> & Hf).
    assert (Hl : participants_of (activities w) A = Some l)
      by (rewrite Hd; by eapply participants_of_dict).
    destruct (existsb (py_eq_str E) l) eqn:HE.
    + apply existsb_py_eq_str in HE.
      destruct (remove_first_Some _ _ HE) as (l1 & l2 & -> & Hl1 & _).
      rewrite (unregister_commits _ _ A E e w d f l1 l2) by done. cbv zeta.
      destruct (committed_world (unregistered_message A E)
                  (with_roster A (l1 ++ l2) (activities w)) e w)
        as (Hacts & Hraise & Hsave).
      split; [split; [intros H%Hraise; discriminate|done]|].
      split; [split; [intros H%Hraise; discriminate|]|].
      { intros (_ & l' & Hl' & Hin). congruence. }
      split; [eauto|].
      split; [intros ?? Hx%Hraise; done|].
      intros l' Hl' _. assert (l' = (l1 ++ PyStr E :: l2)%list) as -> by congruence.
      exists l1, l2. rewrite Hacts.
      split; [done|]. split; [done|].
      split; [by eapply with_roster_participants|]. done.
    + rewrite (unregister_unsigned _ _ A E e w d f l) by done. simpl.
      apply existsb_py_eq_str_false in HE.
      split; [split; [discriminate|done]|].
      split; [split; [eauto|done]|].
      split; [eauto|]. split; [done|].
      intros l' Hl' Hn. congruence.
  - rewrite (unregister_unknown _ _ A E e w d) by done. simpl.
    assert (Hkey : A ∉ keys_of (activities w))
      by (rewrite Hd; by apply alookup_None).
    split; [done|]. split; [split; [discriminate|tauto]|].
    split; [done|]. split; [done|].
    intros l Hl%participants_of_known. done.
Qed.

(** What either handler does to the store, whatever it answers. *)
Lemma signup_store A E e w :
  (signup A E e w).2 = w \/
  exists l, participants_of (activities w) A = Some l /\ (PyStr E ∉ l) /\
    signup A E e w =
    answer (signed_up_message A E)
      (save (with_roster A (l ++ [PyStr E]) (activities w)) e
         (World (with_roster A (l ++ [PyStr E]) (activities w))
            (files w) (log w))).
Proof.
  destruct (signup_inv empty_file json_dumps A E e w)
    as [[x ->]|(d & f & l & Hd & HA & Hf & HE)]; [by left|right].
  exists l. split; [rewrite Hd; by eapply participants_of_dict|].
  split; [by apply existsb_py_eq_str_false|].
  by eapply signup_commits.
Qed.

Lemma unregister_store A E e w :
  (unregister A E e w).2 = w \/
  exists l1 l2,
    participants_of (activities w) A = Some (l1 ++ PyStr E :: l2)%list /\
    (PyStr E ∉ l1) /\
    unregister A E e w =
    answer (unregistered_message A E)
      (save (with_roster A (l1 ++ l2) (activities w)) e
         (World (with_roster A (l1 ++ l2) (activities w))
            (files w) (log w))).
Proof.
  destruct (unregister_inv empty_file json_dumps A E e w)
    as [[x ->]|(d & f & l & Hd & HA & Hf & HE)]; [by left|right].
  apply existsb_py_eq_str in HE.
  destruct (remove_first_Some _ _ HE) as (l1 & l2 & -> & Hl1 & _).
  exists l1, l2. split; [rewrite Hd; by eapply participants_of_dict|].
  split; [done|]. by eapply unregister_commits.
Qed.

Lemma committed_store body store e (w : world content) :
  activities (answer body (save store e (World store (files w) (log w)))).2
  = store.
Proof. by rewrite answer_world, save_activities_global. Qed.

(** C6. When the activity is in the store and the email is not on its
    roster: a signup that succeeds leaves the email on the roster exactly
    once; and two signups in a row, the first one saved, give the
    confirmation and then the 400, with the roster one entry longer than at
    the start. *)
Theorem signup_twice A E e1 e2 w l :
  participants_of (activities w) A = Some l -> PyStr E ∉ l ->
  let r1 := (signup A E e1 w).1 in
  let w1 := (signup A E e1 w).2 in
  let r2 := (signup A E e2 w1).1 in
  let w2 := (signup A E e2 w1).2 in
  (forall body, r1 = Ok body ->
     exists l1, participants_of (activities w1) A = Some l1 /\
                roster_count E l1 = 1%nat) /\
  (save_ok e1 (files w) ->
     r1 = Ok (signed_up_message A E) /\
     r2 = Raise (HTTPException 400 "Student is already signed up") /\
     exists l2, participants_of (activities w2) A = Some l2 /\
                length l2 = S (length l)).
Proof.
  intros Hl HE. cbv zeta.
  destruct (participants_of_inv _ _ _ Hl) as (d & f & Hd & HA & Hf).
  pose proof (signup_commits empty_file json_dumps A E e1 w d f l Hd HA Hf
                (proj2 (existsb_py_eq_str_false _ _) HE)) as Hrun.
  cbv zeta in Hrun. rewrite Hrun.
  destruct (committed_world (signed_up_message A E)
              (with_roster A (l ++ [PyStr E]) (activities w)) e1 w)
    as (Hacts & _ & Hsave).
  set (p := answer _ _) in *.
  assert (Hl1 : participants_of (activities p.2) A = Some (l ++ [PyStr E])%list)
    by (rewrite Hacts; by eapply with_roster_participants).
  split.
  - intros _ _. exists (l ++ [PyStr E])%list. split; [done|].
    by rewrite roster_count_app, roster_count_absent, roster_count_self.
  - intros Hok. destruct (Hsave Hok) as [Hr1 _]. split; [done|].
    destruct (participants_of_inv _ _ _ Hl1) as (d1 & f1 & Hd1 & HA1 & Hf1).
    assert (Hin : existsb (py_eq_str E) (l ++ [PyStr E]) = true).
    { apply existsb_py_eq_str, elem_of_app. right. left. }
    rewrite (signup_signed _ _ A E e2 p.2 d1 f1 _ Hd1 HA1 Hf1 Hin). simpl.
    split; [done|]. exists (l ++ [PyStr E])%list. split; [done|].
    rewrite length_app. simpl. lia.
Qed.

(** When the save after the change fails, the handler raises what the save
    raised, and the roster in memory has the new entry all the same. *)
Lemma signup_unsaved A E e w l :
  participants_of (activities w) A = Some l -> PyStr E ∉ l ->
  ~ save_ok e (files w) ->
  (signup A E e w).1 = Raise OSError /\
  participants_of (activities (signup A E e w).2) A
  = Some (l ++ [PyStr E])%list.
Proof.
  intros Hl HE Hno.
  destruct (participants_of_inv _ _ _ Hl) as (d & f & Hd & HA & Hf).
  pose proof (signup_commits empty_file json_dumps A E e w d f l Hd HA Hf
                (proj2 (existsb_py_eq_str_false _ _) HE)) as Hrun.
  cbv zeta in Hrun. rewrite Hrun, committed_store.
  split; [|by eapply with_roster_participants].
  pose proof (save_activities_fails empty_file json_dumps
                (with_roster A (l ++ [PyStr E]) (activities w)) e
                (World (with_roster A (l ++ [PyStr E]) (activities w))
                   (files w) (log w)) Hno) as Hr.
  destruct (save_activities _ _ _ _ _) as [[[]|x] w1]; simpl in *; congruence.
Qed.

(** C8. No capacity check: when the activity is in the store and the email
    is not on its roster, a signup that is saved succeeds and appends the
    email although the roster is already as long as [max_participants], or
    longer. *)
Theorem signup_ignores_capacity A E e w l (cap : Z) :
  participants_of (activities w) A = Some l -> PyStr E ∉ l ->
  field_of (activities w) A "max_participants" = Some (PyInt cap) ->
  (cap <= Z.of_nat (length l))%Z ->
  save_ok e (files w) ->
  (signup A E e w).1 = Ok (signed_up_message A E) /\
  participants_of (activities (signup A E e w).2) A
  = Some (l ++ [PyStr E])%list /\
  field_of (activities (signup A E e w).2) A "max_participants"
  = Some (PyInt cap).
Proof.
  intros Hl HE Hcap _ Hok.
  destruct (participants_of_inv _ _ _ Hl) as (d & f & Hd & HA & Hf).
  pose proof (signup_commits empty_file json_dumps A E e w d f l Hd HA Hf
                (proj2 (existsb_py_eq_str_false _ _) HE)) as Hrun.
  cbv zeta in Hrun. rewrite Hrun.
  destruct (committed_world (signed_up_message A E)
              (with_roster A (l ++ [PyStr E]) (activities w)) e w)
    as (Hacts & _ & Hsave).
  destruct (Hsave Hok) as [Hr _]. rewrite Hacts.
  split; [done|]. split; [by eapply with_roster_participants|].
  by rewrite with_roster_field.
Qed.

(** C9. Whatever [signup_for_activity] or [unregister_from_activity]
    answers, and so whenever they succeed, the store afterwards has the same
    keys in the same order, the same record under every other name, and
    under the name itself the same value in every field other than
    ["participants"]. *)
Theorem handlers_change_one_roster A E e w :
  forall w', w' = (signup A E e w).2 \/ w' = (unregister A E e w).2 ->
  keys_of (activities w') = keys_of (activities w) /\
  (forall B, B <> A ->
     activity_of (activities w') B = activity_of (activities w) B) /\
  (forall B fld, fld <> "participants" ->
     field_of (activities w') B fld = field_of (activities w) B fld).
Proof.
  intros w' Hw'.
  assert (Hst : activities w' = activities w \/
                exists l', activities w' = with_roster A l' (activities w)).
  { destruct Hw' as [-> | ->].
    - destruct (signup_store A E e w) as [-> | (l & _ & _ & ->)]; [by left|].
      right. eexists. apply committed_store.
    - destruct (unregister_store A E e w) as [-> | (l1 & l2 & _ & _ & ->)];
        [by left|].
      right. eexists. apply committed_store. }
  destruct Hst as [-> | [l' ->]]; [done|].
  split; [apply with_roster_keys|].
  split; [intros; by apply with_roster_other|].
  intros; by apply with_roster_field.
Qed.

Lemma aupdate_absent {V} k (v : V) d :
  alookup k d = None -> aupdate k v d = d.
Proof.
  induction d as [|[k' v'] d IH]; [done|]. cbn [alookup aupdate].
  destruct (String.eqb k k'); [done|]. intros H. by rewrite IH.
Qed.

Lemma with_roster_participants_inv A l' store l :
  participants_of (with_roster A l' store) A = Some l ->
  l = l' \/ participants_of store A = Some l.
Proof.
  unfold with_roster.
  destruct store as [| | | | | |d]; auto.
  destruct (alookup A d) as [[| | | | | |f]|] eqn:HA; auto.
  unfold participants_of, field_of, activity_of.
  rewrite alookup_aupdate_eq by eauto.
  destruct (alookup "participants" f) as [v|] eqn:Hf.
  - rewrite alookup_aupdate_eq by eauto. intros [= <-]. by left.
  - by rewrite aupdate_absent, Hf.
Qed.

Lemma no_duplicate_with_roster A l' store :
  no_duplicate_rosters store -> NoDup l' ->
  no_duplicate_rosters (with_roster A l' store).
Proof.
  intros Hnd Hl' B l. destruct (decide (B = A)) as [->|Hne].
  - intros [-> | Hl]%with_roster_participants_inv; [done|by eapply Hnd].
  - rewrite with_roster_participants_other by done. apply Hnd.
Qed.

(** C10. If no roster of the store lists an email twice, the same holds
    after [signup_for_activity] and after [unregister_from_activity],
    whatever they answer. *)
Theorem handlers_keep_rosters_duplicate_free A E e w :
  no_duplicate_rosters (activities w) ->
  no_duplicate_rosters (activities (signup A E e w).2) /\
  no_duplicate_rosters (activities (unregister A E e w).2).
Proof.
  intros Hnd. split.
  - destruct (signup_store A E e w) as [-> | (l & Hl & HE & ->)]; [done|].
    rewrite committed_store. apply no_duplicate_with_roster; [done|].
    apply NoDup_app. split; [by eapply Hnd|]. split.
    + intros x Hx ->%list_elem_of_singleton. done.
    + apply NoDup_singleton.
  - destruct (unregister_store A E e w) as [-> | (l1 & l2 & Hl & HE & ->)];
      [done|].
    rewrite committed_store. apply no_duplicate_with_roster; [done|].
    apply Hnd in Hl. apply NoDup_app in Hl as (H1 & H12 & H2).
    apply NoDup_cons in H2 as [_ H2]. apply NoDup_app.
    split; [done|]. split; [|done].
    intros x Hx Hx2. apply (H12 x Hx). by right.
Qed.
End HandlerTheorems.

(** ** [load_activities] and [reload_activities] *)

Lemma json_exact_strings (l : list string) : json_exact (PyList (PyStr <$> l)).
Proof. induction l as [|s l IH]; simpl; [done|]. split; [done|]. apply IH. Qed.

Lemma json_exact_activity a : json_exact (activity_to_py a).
Proof.
  unfold activity_to_py, activity_record. cbn [json_exact]. split.
  - cbn. repeat (apply NoDup_cons; split;
                 [rewrite ?elem_of_cons, elem_of_nil; intros H;
                  repeat destruct H as [H|H]; by inversion H|]).
    apply NoDup_nil_2.
  - repeat split. apply (json_exact_strings (participants a)).
Qed.

Lemma json_exact_dict d :
  NoDup d.*1 -> Forall (fun kv => json_exact kv.2) d -> json_exact (PyDict d).
Proof.
  intros Hnd Hall. cbn [json_exact]. split; [done|].
  clear Hnd. induction Hall as [|[k v] d Hv _ IH]; [done|]. by split.
Qed.

Lemma json_exact_store m : json_exact (store_of_map m).
Proof.
  unfold store_of_map. apply json_exact_dict.
  - rewrite <- list_fmap_compose.
    replace (fst ∘ (fun kv : string * Activity => (kv.1, activity_to_py kv.2)))
      with (fst : string * Activity -> string) by done.
    apply NoDup_fst_map_to_list.
  - apply Forall_fmap, Forall_forall. intros [k a] _. apply json_exact_activity.
Qed.

Section LoadTheorems.
Context {content : Type}.
Variable empty_file : content.
Variable json_dumps : pyval -> content.
Variable json_loads : content -> option pyval.

Local Abbreviation save := (save_activities empty_file json_dumps).
Local Abbreviation load := (load_activities empty_file json_dumps json_loads).
Local Abbreviation reload := (reload_activities empty_file json_dumps json_loads).

Lemma load_activities_run e w :
  load e w =
  match files w !! ACTIVITIES_FILE ≫= json_loads with
  | Some v => (Ok v, w)
  | None => answer _default_activities (save _default_activities e w)
  end.
Proof.
  destruct w as [acts fs lg]. unfold load_activities. run_py.
  destruct (fs !! ACTIVITIES_FILE) as [c|] eqn:Hc; cbn [mbind option_bind].
  - rewrite bool_decide_eq_true_2 by eauto. rewrite Hc.
    destruct (json_loads c) as [v|]; [done|].
    unfold answer. by destruct (save _ _ _) as [[[]|x] w'].
  - rewrite bool_decide_eq_false_2 by (by intros [? ?]).
    rewrite ?Hc. unfold answer. by destruct (save _ _ _) as [[[]|x] w'].
Qed.

Lemma default_activities_count : length (keys_of _default_activities) = 9%nat.
Proof. reflexivity. Qed.

Lemma default_chess_club :
  participants_of _default_activities "Chess Club"
  = Some [PyStr "michael@mergington.edu"; PyStr "daniel@mergington.edu"].
Proof. reflexivity. Qed.

(** C3, as the code has it. [load_activities] never changes the module
    global. When the canonical file holds a text that [json.load] accepts,
    it returns the value of that text, whatever its type, and leaves the
    directory alone. When the file is absent or its text is rejected, it
    calls [save_activities] on the nine default activities ("Chess Club"
    with its two participants among them): if that save goes through, the
    defaults are the content of the canonical file and the value returned;
    if it does not, the [OSError] of the save leaves [load_activities]. *)
Theorem load_activities_outcome e w :
  let r := (load e w).1 in
  let w' := (load e w).2 in
  activities w' = activities w /\
  (forall c v, files w !! ACTIVITIES_FILE = Some c -> json_loads c = Some v ->
     r = Ok v /\ w' = w) /\
  (files w !! ACTIVITIES_FILE = None \/
   (exists c, files w !! ACTIVITIES_FILE = Some c /\ json_loads c = None) ->
     (save_ok e (files w) ->
        r = Ok _default_activities /\
        files w' =
          <[ACTIVITIES_FILE := json_dumps _default_activities]> (files w)) /\
     (~ save_ok e (files w) -> r = Raise OSError)) /\
  length (keys_of _default_activities) = 9%nat /\
  (exists l, participants_of _default_activities "Chess Club" = Some l /\
             length l = 2%nat).
Proof.
  cbv zeta. rewrite load_activities_run.
  split; [|split; [|split; [|split; [reflexivity|]]]].
  - destruct (_ ≫= _); [done|].
    by rewrite answer_world, save_activities_global.
  - intros c v Hc Hv. by rewrite Hc; cbn; rewrite Hv.
  - intros Hbad.
    assert (files w !! ACTIVITIES_FILE ≫= json_loads = None) as ->.
    { destruct Hbad as [-> | (c & -> & Hc)]; [done|]. by cbn. }
    split.
    + intros Hok.
      destruct (save_activities_ok empty_file json_dumps _default_activities
                  e w Hok) as [steps ->]. done.
    + intros Hno.
      pose proof (save_activities_fails empty_file json_dumps
                    _default_activities e w Hno) as Hr.
      destruct (save _ _ _) as [[[]|x] w1]; simpl in *; congruence.
  - eexists. split; [apply default_chess_club|done].
Qed.

(** The standard library keeps its promise on the values it can represent:
    reading back what [json.dump] wrote gives the value that was written. *)
Hypothesis json_roundtrip :
  forall v, json_exact v -> json_loads (json_dumps v) = Some v.

(** C5. For every mapping from activity names to activity records, a
    [save_activities] of the mapping that returns, followed by
    [load_activities], gives back the mapping that was saved and leaves the
    directory as the save left it. *)
Theorem save_then_load (m : gmap string Activity) e e' w :
  (save (store_of_map m) e w).1 = Ok tt ->
  load e' (save (store_of_map m) e w).2
  = (Ok (store_of_map m), (save (store_of_map m) e w).2).
Proof.
  intros Hok. apply save_activities_ok_inv in Hok.
  destruct (save_activities_ok empty_file json_dumps (store_of_map m) e w Hok)
    as [steps ->].
  rewrite load_activities_run. cbn [snd files].
  rewrite lookup_insert_eq. cbn [mbind option_bind].
  by rewrite json_roundtrip by apply json_exact_store.
Qed.

Lemma reload_activities_run e w :
  reload e w =
  match load e w with
  | (Ok v, w1) =>
      match py_len v with
      | Ok n => (Ok (reloaded_message n), World v (files w1) (log w1))
      | Raise x => (Raise x, World v (files w1) (log w1))
      end
  | (Raise x, w1) => (Raise x, w1)
  end.
Proof.
  unfold reload_activities, bind at 1.
  destruct (load e w) as [[v|x] [a1 f1 l1]]; [|done].
  run_py. by destruct (py_len v).
Qed.

(** C7. When the canonical file holds the text of the mapping in memory,
    [reload_activities] leaves the mapping, and the whole world, as they
    were, and answers with the number of activities of that mapping. *)
Theorem reload_activities_unchanged e w d :
  activities w = PyDict d -> json_exact (activities w) ->
  files w !! ACTIVITIES_FILE = Some (json_dumps (activities w)) ->
  reload e w = (Ok (reloaded_message (Z.of_nat (length d))), w) /\
  activities (reload e w).2 = activities w.
Proof.
  intros Hd Hexact Hfile.
  assert (reload e w = (Ok (reloaded_message (Z.of_nat (length d))), w)) as ->;
    [|done].
  rewrite reload_activities_run, load_activities_run, Hfile. cbn.
  rewrite json_roundtrip by done. rewrite Hd. cbn.
  destruct w as [acts fs lg]. cbn in *. by subst.
Qed.
End LoadTheorems.

(** ** The reference [json] and the school *)

Lemma is_store_shaped store : is_store store = true -> store_shaped store.
Proof.
  destruct store as [| | | | | |d]; try discriminate. cbn [is_store].
  intros Hall. split; [eauto|]. intros name a. cbn [activity_of].
  induction d as [|[k v] d IH]; [discriminate|].
  cbn [forallb alookup] in *. apply andb_prop in Hall as [Hv Hd].
  destruct (String.eqb name k); [|by auto].
  intros [= <-]. cbn [snd] in Hv.
  destruct v as [| | | | | |f]; try done.
  destruct (alookup "participants" f) as [[| | | | |l|]|] eqn:Hf; try done.
  eauto.
Qed.

Lemma doc_roundtrip v : json_exact v -> DocCodec.loads (DocCodec.dumps v) = Some v.
Proof. reflexivity. Qed.

Module SchoolFacts.
Import DocCodec School.

Lemma calm_lets_save_through fs :
  fs !! (DATA_DIR, "activitiesk3f9x2.tmp") = None -> save_ok calm fs.
Proof.
  intros Hfree. split; [|done]. unfold calm. cbn [tmp_names free_name].
  change ("activities" ++ "k3f9x2" ++ ".tmp") with "activitiesk3f9x2.tmp".
  rewrite bool_decide_eq_false_2 by (rewrite Hfree; by intros [? ?]). eauto.
Qed.

(** The walk through the API of the specification: a start on an empty
    data directory gives nine activities and two chess players; a signup
    makes them three, the same signup again is refused, the withdrawal
    brings them back to two, and an unknown activity is a 404. *)
Example chess_club_scenario :
  let w1 := (startup empty dumps loads calm blank).2 in
  let s2 := signup "Chess Club" "new@mergington.edu" calm w1 in
  let s3 := signup "Chess Club" "new@mergington.edu" calm s2.2 in
  let s4 := unregister "Chess Club" "new@mergington.edu" calm s3.2 in
  let s5 := signup "Unknown" "x@y.edu" calm s4.2 in
  length (keys_of (activities w1)) = 9%nat /\
  length <$> participants_of (activities w1) "Chess Club" = Some 2%nat /\
  s2.1 = Ok (signed_up_message "Chess Club" "new@mergington.edu") /\
  length <$> participants_of (activities s2.2) "Chess Club" = Some 3%nat /\
  s3.1 = Raise (HTTPException 400 "Student is already signed up") /\
  s4.1 = Ok (unregistered_message "Chess Club" "new@mergington.edu") /\
  length <$> participants_of (activities s4.2) "Chess Club" = Some 2%nat /\
  s5.1 = Raise (HTTPException 404 "Activity not found") /\
  files s4.2 !! ACTIVITIES_FILE = Some (dumps (activities s4.2)).
Proof. vm_compute. repeat split. Qed.

(** [load_activities] can fail outward, and can return something that is
    not a mapping: with no file yet and a disk that fills up while
    the defaults are written, [load_activities] raises; and a file that
    holds the JSON text of a list makes it return that list, which is not a
    mapping. *)
Lemma load_activities_can_raise :
  (load disk_full blank).1 = Raise OSError /\
  (load calm listed).1 = Ok (PyList []).
Proof. split; vm_compute; reflexivity. Qed.

(** The temporary file can outlive a failed save: when the write fails and the removal of the
    temporary file fails too, [save_activities] raises and the temporary
    file stays in the data directory, with the partial text in it. *)
Lemma save_activities_can_leave_tmp :
  (save _default_activities stuck blank).1 = Raise OSError /\
  files (save _default_activities stuck blank).2
    !! (DATA_DIR, "activitiesk3f9x2.tmp") = Some (Text "{").
Proof. split; vm_compute; reflexivity. Qed.

Lemma new_student_absent (l : list pyval) s :
  existsb (py_eq_str s) l = false -> PyStr s ∉ l.
Proof. apply existsb_py_eq_str_false. Qed.

Lemma new_student_present (l : list pyval) s :
  existsb (py_eq_str s) l = true -> PyStr s ∈ l.
Proof. apply existsb_py_eq_str. Qed.

Lemma signup_for_activity_outcome_witness :
  store_shaped (activities fresh) /\
  (signup "Chess Club" "new@mergington.edu" calm fresh).1
  = Ok (signed_up_message "Chess Club" "new@mergington.edu").
Proof.
  assert (H : store_shaped (activities fresh))
    by (apply is_store_shaped; reflexivity).
  split; [exact H|].
  destruct (signup_for_activity_outcome empty dumps
              "Chess Club" "new@mergington.edu" calm fresh H)
    as (_ & _ & _ & _ & Hc).
  destruct (Hc [PyStr "michael@mergington.edu"; PyStr "daniel@mergington.edu"])
    as (_ & _ & Hsaved).
  - reflexivity.
  - apply new_student_absent. reflexivity.
  - apply Hsaved, calm_lets_save_through. reflexivity.
Defined.

Lemma unregister_from_activity_outcome_witness :
  store_shaped (activities fresh) /\
  (unregister "Chess Club" "daniel@mergington.edu" calm fresh).1
  = Ok (unregistered_message "Chess Club" "daniel@mergington.edu").
Proof.
  assert (H : store_shaped (activities fresh))
    by (apply is_store_shaped; reflexivity).
  split; [exact H|].
  destruct (unregister_from_activity_outcome empty dumps
              "Chess Club" "daniel@mergington.edu" calm fresh H)
    as (_ & _ & _ & _ & Hc).
  destruct (Hc [PyStr "michael@mergington.edu"; PyStr "daniel@mergington.edu"])
    as (l1 & l2 & _ & _ & _ & _ & Hsaved).
  - reflexivity.
  - apply new_student_present. reflexivity.
  - apply Hsaved, calm_lets_save_through. reflexivity.
Defined.

Lemma load_activities_outcome_witness :
  files blank !! ACTIVITIES_FILE = None /\ save_ok calm (files blank) /\
  (load calm blank).1 = Ok _default_activities.
Proof.
  assert (Hok : save_ok calm (files blank))
    by (apply calm_lets_save_through; reflexivity).
  split; [reflexivity|]. split; [exact Hok|].
  destruct (load_activities_outcome empty dumps loads calm blank)
    as (_ & _ & Hdefaults & _).
  destruct Hdefaults as [Hsaved _]; [left; reflexivity|].
  apply Hsaved, Hok.
Defined.

Lemma save_then_load_witness :
  (forall v, json_exact v -> loads (dumps v) = Some v) /\
  (save (store_of_map go_map) calm blank).1 = Ok tt /\
  load calm (save (store_of_map go_map) calm blank).2
  = (Ok (store_of_map go_map), (save (store_of_map go_map) calm blank).2).
Proof.
  assert (Hsaved : (save (store_of_map go_map) calm blank).1 = Ok tt)
    by (vm_compute; reflexivity).
  split; [exact doc_roundtrip|]. split; [exact Hsaved|].
  exact (save_then_load empty dumps loads doc_roundtrip go_map calm calm blank
           Hsaved).
Defined.

Lemma signup_twice_witness :
  participants_of (activities fresh) "Chess Club"
  = Some [PyStr "michael@mergington.edu"; PyStr "daniel@mergington.edu"] /\
  (signup "Chess Club" "new@mergington.edu" calm fresh).1
  = Ok (signed_up_message "Chess Club" "new@mergington.edu") /\
  (signup "Chess Club" "new@mergington.edu" calm
     (signup "Chess Club" "new@mergington.edu" calm fresh).2).1
  = Raise (HTTPException 400 "Student is already signed up").
Proof.
  split; [reflexivity|].
  destruct (signup_twice empty dumps "Chess Club" "new@mergington.edu"
              calm calm fresh
              [PyStr "michael@mergington.edu"; PyStr "daniel@mergington.edu"])
    as (_ & Htwice).
  - reflexivity.
  - apply new_student_absent. reflexivity.
  - destruct Htwice as (H1 & H2 & _).
    + apply calm_lets_save_through. reflexivity.
    + split; [exact H1|exact H2].
Defined.

Lemma reload_activities_unchanged_witness :
  json_exact (activities go_saved) /\
  files go_saved !! ACTIVITIES_FILE = Some (dumps (activities go_saved)) /\
  reload calm go_saved = (Ok (reloaded_message 1), go_saved).
Proof.
  assert (Hexact : json_exact (store_of_map go_map)) by apply json_exact_store.
  split; [exact Hexact|]. split; [reflexivity|].
  destruct (reload_activities_unchanged empty dumps loads doc_roundtrip calm
              go_saved
              ((fun kv : string * Activity => (kv.1, activity_to_py kv.2))
                 <$> map_to_list go_map))
    as [Hrun _].
  - reflexivity.
  - exact Hexact.
  - reflexivity.
  - exact Hrun.
Defined.

Lemma signup_ignores_capacity_witness :
  participants_of (activities full_club) "Go Club"
  = Some [PyStr "ana@mergington.edu"] /\
  field_of (activities full_club) "Go Club" "max_participants"
  = Some (PyInt 1) /\
  (1 <= Z.of_nat (length [PyStr "ana@mergington.edu"]))%Z /\
  (signup "Go Club" "bo@mergington.edu" calm full_club).1
  = Ok (signed_up_message "Go Club" "bo@mergington.edu").
Proof.
  split; [reflexivity|]. split; [reflexivity|]. split; [simpl; lia|].
  destruct (signup_ignores_capacity empty dumps "Go Club" "bo@mergington.edu"
              calm full_club [PyStr "ana@mergington.edu"] 1) as [Hr _].
  - reflexivity.
  - apply new_student_absent. reflexivity.
  - reflexivity.
  - simpl; lia.
  - apply calm_lets_save_through. reflexivity.
  - exact Hr.
Defined.

Lemma handlers_change_one_roster_witness :
  keys_of (activities (signup "Go Club" "bo@mergington.edu" calm full_club).2)
  = keys_of (activities full_club).
Proof.
  destruct (handlers_change_one_roster empty dumps "Go Club"
              "bo@mergington.edu" calm full_club
              (signup "Go Club" "bo@mergington.edu" calm full_club).2)
    as [Hkeys _].
  - left. reflexivity.
  - exact Hkeys.
Defined.

Lemma full_club_no_duplicates : no_duplicate_rosters (activities full_club).
Proof.
  intros name roster. unfold participants_of, field_of, activity_of.
  cbn [full_club activities alookup].
  destruct (String.eqb name "Go Club"); [|discriminate].
  intros [= <-]. apply NoDup_singleton.
Qed.

Lemma handlers_keep_rosters_duplicate_free_witness :
  no_duplicate_rosters (activities full_club) /\
  no_duplicate_rosters
    (activities (signup "Go Club" "bo@mergington.edu" calm full_club).2).
Proof.
  split; [exact full_club_no_duplicates|].
  exact (proj1 (handlers_keep_rosters_duplicate_free empty dumps "Go Club"
                  "bo@mergington.edu" calm full_club full_club_no_duplicates)).
Defined.
End SchoolFacts.

(** ** More on [save_activities] *)

Section SaveExtras.
Context {content : Type}.
Variable empty_file : content.
Variable json_dumps : pyval -> content.

Local Abbreviation save := (save_activities empty_file json_dumps).

(** X1. Whatever [save_activities] does and however it ends, every file
    that was in the data directory under another name than the canonical
    one is still there with its content. *)
Theorem save_activities_spares_other_files data e w p c :
  p <> ACTIVITIES_FILE -> files w !! p = Some c ->
  files (save data e w).2 !! p = Some c.
Proof.
  intros Hp Hc. rewrite save_activities_run.
  destruct (free_name _ _ _ _ _) as [tmp|] eqn:Htmp; [|done].
  destruct (free_name_not_canonical _ _ _ Htmp) as (Hne & _ & Hfresh).
  assert (Hpt : tmp <> p) by (intros ->; congruence).
  cbv zeta.
  destruct (write_fault e), (replace_fault e), (remove_fault e);
    cbn [snd files];
    rewrite ?lookup_insert_ne, ?lookup_delete_ne, ?lookup_insert_ne by done;
    done.
Qed.

(** X2. Two saves in a row that both return leave the directory as it was
    before the first one, except for the canonical file, which holds the
    text of the second mapping: the last save wins and no temporary file
    piles up. *)
Theorem save_activities_last_wins d1 d2 e1 e2 w :
  (save d1 e1 w).1 = Ok tt ->
  (save d2 e2 (save d1 e1 w).2).1 = Ok tt ->
  files (save d2 e2 (save d1 e1 w).2).2
  = <[ACTIVITIES_FILE := json_dumps d2]> (files w).
Proof.
  intros H1%save_activities_ok_inv.
  destruct (save_activities_ok empty_file json_dumps d1 e1 w H1) as [s1 ->].
  cbn [snd]. intros H2%save_activities_ok_inv.
  destruct (save_activities_ok empty_file json_dumps d2 e2 _ H2) as [s2 ->].
  cbn [snd files]. apply insert_insert_eq.
Qed.

(** A save that raises has left the canonical file alone. *)
Lemma save_activities_failed_canonical data e w x :
  (save data e w).1 = Raise x ->
  files (save data e w).2 !! ACTIVITIES_FILE = files w !! ACTIVITIES_FILE.
Proof.
  rewrite save_activities_run.
  destruct (free_name _ _ _ _ _) as [tmp|] eqn:Htmp; [|done].
  destruct (free_name_not_canonical _ _ _ Htmp) as (Hne & _ & Hfresh).
  cbv zeta.
  destruct (write_fault e), (replace_fault e), (remove_fault e);
    cbn [fst snd files]; try discriminate; intros _;
    rewrite ?lookup_delete_ne, ?lookup_insert_ne by done; done.
Qed.
End SaveExtras.

(** ** More on the handlers *)

Section HandlerExtras.
Context {content : Type}.
Variable empty_file : content.
Variable json_dumps : pyval -> content.

Local Abbreviation save := (save_activities empty_file json_dumps).
Local Abbreviation signup := (signup_for_activity empty_file json_dumps).
Local Abbreviation unregister := (unregister_from_activity empty_file json_dumps).

(** Either handler, on any world: it raises and nothing has happened, or it
    has put a new roster in place and answers what the save lets it. *)
Lemma handler_cases A E e w p :
  p = signup A E e w \/ p = unregister A E e w ->
  (exists x, p = (Raise x, w)) \/
  exists l l' body,
    participants_of (activities w) A = Some l /\
    (l' = (l ++ [PyStr E])%list /\ (PyStr E ∉ l) \/
     exists l1 l2, l = (l1 ++ PyStr E :: l2)%list /\ (PyStr E ∉ l1) /\
                   l' = (l1 ++ l2)%list) /\
    p = answer body
          (save (with_roster A l' (activities w)) e
             (World (with_roster A l' (activities w)) (files w) (log w))).
Proof.
  intros [-> | ->].
  - destruct (signup_inv empty_file json_dumps A E e w)
      as [?|(d & f & l & Hd & HA & Hf & HE)]; [by left|right].
    exists l, (l ++ [PyStr E])%list, (signed_up_message A E).
    split; [rewrite Hd; by eapply participants_of_dict|].
    split; [left; split; [done|by apply existsb_py_eq_str_false]|].
    by eapply signup_commits.
  - destruct (unregister_inv empty_file json_dumps A E e w)
      as [?|(d & f & l & Hd & HA & Hf & HE)]; [by left|right].
    apply existsb_py_eq_str in HE.
    destruct (remove_first_Some _ _ HE) as (l1 & l2 & -> & Hl1 & _).
    exists (l1 ++ PyStr E :: l2)%list, (l1 ++ l2)%list,
      (unregistered_message A E).
    split; [rewrite Hd; by eapply participants_of_dict|].
    split; [right; by exists l1, l2|].
    by eapply unregister_commits.
Qed.

(** X3. On any world, shaped or not: when [signup_for_activity] or
    [unregister_from_activity] answers normally, the canonical file holds
    the text of the store that is now in memory. *)
Theorem handler_success_is_on_disk A E e w p body :
  p = signup A E e w \/ p = unregister A E e w ->
  p.1 = Ok body ->
  files p.2 !! ACTIVITIES_FILE = Some (json_dumps (activities p.2)).
Proof.
  intros Hp Hok.
  destruct (handler_cases A E e w p Hp)
    as [[x ->]|(l & l' & b & _ & _ & ->)]; [discriminate|].
  destruct (committed_world empty_file json_dumps b
              (with_roster A l' (activities w)) e w) as (Hacts & _ & Hsaved).
  assert (Hsave_ok : save_ok e (files w)).
  { apply (save_activities_ok_inv empty_file json_dumps
             (with_roster A l' (activities w)) e
             (World (with_roster A l' (activities w)) (files w) (log w))).
    destruct (save _ e _) as [[[]|y] w1]; [done|discriminate]. }
  destruct (Hsaved Hsave_ok) as [_ Hfiles].
  rewrite Hfiles, Hacts. apply lookup_insert_eq.
Qed.


(** X5. An activity whose record has no ["participants"] key: both
    handlers raise [KeyError] and change nothing. *)
Theorem handler_missing_participants A E e w d f :
  activities w = PyDict d -> alookup A d = Some (PyDict f) ->
  alookup "participants" f = None ->
  signup A E e w = (Raise KeyError, w) /\
  unregister A E e w = (Raise KeyError, w).
Proof.
  destruct w as [acts fs lg]. cbn [activities]. intros -> HA Hf.
  unfold signup_for_activity, unregister_from_activity. run_handler.
  rewrite HA, bool_decide_eq_true_2 by eauto. run_handler.
  by rewrite Hf.
Qed.

(** X6. A store that is not a dict (what [reload_activities] leaves when
    the file holds a JSON list, string, number or null): neither handler
    ever succeeds or changes anything; the answer is a 404 or a
    [TypeError]. *)
Theorem handler_on_non_dict A E e w p :
  (forall d, activities w <> PyDict d) ->
  p = signup A E e w \/ p = unregister A E e w ->
  p.2 = w /\
  (p.1 = Raise (HTTPException 404 "Activity not found") \/
   p.1 = Raise TypeError).
Proof.
  intros Hnd Hp. destruct w as [acts fs lg]. cbn [activities] in Hnd.
  destruct Hp as [-> | ->];
    unfold signup_for_activity, unregister_from_activity;
    destruct acts as [| | | | t|l|d]; run_handler; auto;
    try (by destruct (Hnd d)).
  - destruct (is_substring A t); run_handler; auto.
  - destruct (existsb (py_eq_str A) l); run_handler; auto.
  - destruct (is_substring A t); run_handler; auto.
  - destruct (existsb (py_eq_str A) l); run_handler; auto.
Qed.

(** X9. [unregister_from_activity] takes one occurrence of the email off
    the roster and no more, saved or not: the roster is one shorter and
    lists the email once less, so an email that a hand-edited file lists
    twice is still registered afterwards. *)
Theorem unregister_removes_one_occurrence A E e w l :
  participants_of (activities w) A = Some l -> PyStr E ∈ l ->
  exists l',
    participants_of (activities (unregister A E e w).2) A = Some l' /\
    S (length l') = length l /\
    S (roster_count E l') = roster_count E l.
Proof.
  intros Hl HE.
  destruct (participants_of_inv _ _ _ Hl) as (d & f & Hd & HA & Hf).
  destruct (remove_first_Some _ _ HE) as (l1 & l2 & -> & Hl1 & _).
  rewrite (unregister_commits _ _ A E e w d f l1 l2) by done. cbv zeta.
  rewrite committed_store. exists (l1 ++ l2)%list.
  split; [by eapply with_roster_participants|].
  rewrite !length_app, !roster_count_app. cbn [length].
  change (PyStr E :: l2) with ([PyStr E] ++ l2)%list.
  rewrite roster_count_app, roster_count_self. lia.
Qed.
End HandlerExtras.

(** ** Stores along a run of requests *)

Lemma aupdate_same {V} k (v : V) d :
  alookup k d = Some v -> aupdate k v d = d.
Proof.
  induction d as [|[k' v'] d IH]; [done|]. cbn [alookup aupdate].
  destruct (String.eqb k k'); [by intros [= ->]|].
  intros H. by rewrite IH.
Qed.

Lemma aupdate_aupdate {V} k (v v' : V) d :
  aupdate k v (aupdate k v' d) = aupdate k v d.
Proof.
  induction d as [|[k' v0] d IH]; [done|]. cbn [aupdate].
  destruct (String.eqb k k') eqn:Hk; cbn [aupdate]; rewrite Hk; [done|].
  by rewrite IH.
Qed.

Lemma with_roster_with_roster A l l' store :
  with_roster A l (with_roster A l' store) = with_roster A l store.
Proof.
  destruct store as [| | | | | |d]; try done. cbn [with_roster].
  destruct (alookup A d) as [[| | | | | |f]|] eqn:HA;
    cbn [with_roster]; rewrite ?HA; try done.
  rewrite alookup_aupdate_eq by eauto.
  by rewrite !aupdate_aupdate.
Qed.

Lemma with_roster_same A l store :
  participants_of store A = Some l -> with_roster A l store = store.
Proof.
  intros (d & f & -> & HA & Hf)%participants_of_inv.
  cbn [with_roster]. rewrite HA.
  by rewrite (aupdate_same "participants"), (aupdate_same A).
Qed.

Lemma with_roster_shaped A l store :
  store_shaped store -> store_shaped (with_roster A l store).
Proof.
  intros [[d ->] Hsh]. cbn [with_roster].
  destruct (alookup A d) as [[| | | | | |f]|] eqn:HA;
    try (split; [eauto|done]).
  split; [eauto|]. intros B a. cbn [activity_of].
  destruct (decide (B = A)) as [->|Hne].
  - rewrite alookup_aupdate_eq by eauto. intros [= <-].
    destruct (Hsh A _ HA) as (f' & l0 & [= <-] & Hf).
    eexists _, l. split; [done|]. apply alookup_aupdate_eq. eauto.
  - rewrite alookup_aupdate_ne by done. apply Hsh.
Qed.

Lemma json_exact_list l : json_exact (PyList l) <-> Forall json_exact l.
Proof.
  cbn [json_exact]. induction l as [|x l IH].
  - split; [constructor|done].
  - rewrite Forall_cons, <- IH. done.
Qed.

Lemma json_exact_dict_iff d :
  json_exact (PyDict d) <->
  NoDup d.*1 /\ Forall (fun kv => json_exact kv.2) d.
Proof.
  cbn [json_exact]. apply and_iff_compat_l.
  induction d as [|[k x] d IH].
  - split; [constructor|done].
  - rewrite Forall_cons, <- IH. done.
Qed.

Lemma alookup_Forall {V} (Q : V -> Prop) k v (d : list (string * V)) :
  Forall (fun kv => Q kv.2) d -> alookup k d = Some v -> Q v.
Proof.
  induction 1 as [|[k' v'] d Hv _ IH]; [done|]. cbn [alookup].
  destruct (String.eqb k k'); [by intros [= <-]|done].
Qed.

Lemma aupdate_Forall {V} (Q : V -> Prop) k v (d : list (string * V)) :
  Forall (fun kv => Q kv.2) d -> Q v ->
  Forall (fun kv => Q kv.2) (aupdate k v d).
Proof.
  intros Hd Hv. induction Hd as [|[k' v'] d Hv' Hd' IH]; [constructor|].
  cbn [aupdate]. destruct (String.eqb k k'); by constructor.
Qed.

Lemma participants_exact store A l :
  json_exact store -> participants_of store A = Some l -> Forall json_exact l.
Proof.
  intros Hex (d & f & -> & HA & Hf)%participants_of_inv.
  apply json_exact_dict_iff in Hex as [_ Hd].
  pose proof (alookup_Forall json_exact _ _ _ Hd HA) as Hf'.
  apply json_exact_dict_iff in Hf' as [_ Hf'].
  by apply json_exact_list, (alookup_Forall json_exact _ _ _ Hf' Hf).
Qed.

Lemma with_roster_exact A l store :
  json_exact store -> Forall json_exact l -> json_exact (with_roster A l store).
Proof.
  intros Hex Hl. destruct store as [| | | | | |d]; try done.
  cbn [with_roster].
  destruct (alookup A d) as [[| | | | | |f]|] eqn:HA; try done.
  apply json_exact_dict_iff in Hex as [Hnd Hd].
  pose proof (alookup_Forall json_exact _ _ _ Hd HA) as Hf.
  apply json_exact_dict_iff in Hf as [Hndf Hf].
  apply json_exact_dict_iff. rewrite aupdate_keys. split; [done|].
  apply aupdate_Forall; [done|].
  apply json_exact_dict_iff. rewrite aupdate_keys. split; [done|].
  apply aupdate_Forall; [done|]. by apply json_exact_list.
Qed.

Section RunExtras.
Context {content : Type}.
Variable empty_file : content.
Variable json_dumps : pyval -> content.

Local Abbreviation save := (save_activities empty_file json_dumps).
Local Abbreviation signup := (signup_for_activity empty_file json_dumps).
Local Abbreviation unregister := (unregister_from_activity empty_file json_dumps).
Local Abbreviation serve1 := (serve empty_file json_dumps).
Local Abbreviation run := (serve_all empty_file json_dumps).

(** The store after either handler: the old one, or the old one with one
    roster replaced by what the handler made of it. *)
Lemma handler_store A E e w p :
  p = signup A E e w \/ p = unregister A E e w ->
  activities p.2 = activities w \/
  exists l l',
    participants_of (activities w) A = Some l /\
    (l' = (l ++ [PyStr E])%list /\ (PyStr E ∉ l) \/
     exists l1 l2, l = (l1 ++ PyStr E :: l2)%list /\ (PyStr E ∉ l1) /\
                   l' = (l1 ++ l2)%list) /\
    activities p.2 = with_roster A l' (activities w).
Proof.
  intros Hp.
  destruct (handler_cases empty_file json_dumps A E e w p Hp)
    as [[x ->]|(l & l' & body & Hl & Hl' & ->)]; [by left|right].
  exists l, l'. split; [done|]. split; [done|]. apply committed_store.
Qed.

(** X7. Signing up and then unregistering the same email, both saved,
    gives two confirmations and brings back exactly the store there was;
    the canonical file holds its text again. *)
Theorem signup_then_unregister A E e1 e2 w l :
  participants_of (activities w) A = Some l -> PyStr E ∉ l ->
  save_ok e1 (files w) ->
  save_ok e2 (files (signup A E e1 w).2) ->
  (signup A E e1 w).1 = Ok (signed_up_message A E) /\
  (unregister A E e2 (signup A E e1 w).2).1 = Ok (unregistered_message A E) /\
  activities (unregister A E e2 (signup A E e1 w).2).2 = activities w /\
  files (unregister A E e2 (signup A E e1 w).2).2
  = <[ACTIVITIES_FILE := json_dumps (activities w)]> (files w).
Proof.
  intros Hl HE Hok1.
  destruct (participants_of_inv _ _ _ Hl) as (d & f & Hd & HA & Hf).
  rewrite (signup_commits empty_file json_dumps A E e1 w d f l Hd HA Hf
             (proj2 (existsb_py_eq_str_false _ _) HE)). cbv zeta.
  destruct (committed_world empty_file json_dumps (signed_up_message A E)
              (with_roster A (l ++ [PyStr E]) (activities w)) e1 w)
    as (Hacts1 & _ & Hsaved1).
  destruct (Hsaved1 Hok1) as [Hr1 Hfiles1].
  set (p1 := answer _ _) in *. intros Hok2. split; [done|].
  assert (Hl1 : participants_of (activities p1.2) A
                = Some (l ++ PyStr E :: [])%list)
    by (rewrite Hacts1; by eapply with_roster_participants).
  destruct (participants_of_inv _ _ _ Hl1) as (d1 & f1 & Hd1 & HA1 & Hf1).
  rewrite (unregister_commits empty_file json_dumps A E e2 p1.2 d1 f1 l []
             Hd1 HA1 Hf1 HE). cbv zeta.
  destruct (committed_world empty_file json_dumps (unregistered_message A E)
              (with_roster A (l ++ []) (activities p1.2)) e2 p1.2)
    as (Hacts2 & _ & Hsaved2).
  destruct (Hsaved2 Hok2) as [Hr2 Hfiles2].
  assert (Hback : with_roster A (l ++ []) (activities p1.2) = activities w).
  { rewrite app_nil_r, Hacts1, with_roster_with_roster.
    by apply with_roster_same. }
  split; [exact Hr2|]. split; [exact (eq_trans Hacts2 Hback)|].
  refine (eq_trans Hfiles2 _).
  rewrite Hback, Hfiles1. apply insert_insert_eq.
Qed.

(** X8. Unregistering an email and signing it up again does not bring the
    roster back: the email leaves its place and comes back at the end,
    whether or not the saves go through. *)
Theorem unregister_then_signup A E e1 e2 w l1 l2 :
  participants_of (activities w) A = Some (l1 ++ PyStr E :: l2)%list ->
  PyStr E ∉ l1 -> PyStr E ∉ l2 ->
  participants_of
    (activities (signup A E e2 (unregister A E e1 w).2).2) A
  = Some (l1 ++ l2 ++ [PyStr E])%list.
Proof.
  intros Hl H1 H2.
  destruct (participants_of_inv _ _ _ Hl) as (d & f & Hd & HA & Hf).
  rewrite (unregister_commits empty_file json_dumps A E e1 w d f l1 l2
             Hd HA Hf H1). cbv zeta.
  set (p1 := answer _ _).
  assert (Hacts1 : activities p1.2 = with_roster A (l1 ++ l2) (activities w))
    by apply committed_store.
  assert (Hl1 : participants_of (activities p1.2) A = Some (l1 ++ l2)%list)
    by (rewrite Hacts1; by eapply with_roster_participants).
  destruct (participants_of_inv _ _ _ Hl1) as (d1 & f1 & Hd1 & HA1 & Hf1).
  assert (HE : PyStr E ∉ (l1 ++ l2)%list)
    by (rewrite elem_of_app; tauto).
  rewrite (signup_commits empty_file json_dumps A E e2 p1.2 d1 f1 _
             Hd1 HA1 Hf1 (proj2 (existsb_py_eq_str_false _ _) HE)).
  cbv zeta. rewrite committed_store, <- app_assoc.
  by eapply with_roster_participants.
Qed.

(** One request keeps what a run of requests keeps. *)
Lemma serve_keeps r e w :
  let s := activities w in
  let s' := activities (serve1 r e w).2 in
  keys_of s' = keys_of s /\
  (forall B fld, fld <> "participants" -> field_of s' B fld = field_of s B fld) /\
  (store_shaped s -> store_shaped s') /\
  (no_duplicate_rosters s -> no_duplicate_rosters s') /\
  (json_exact s -> json_exact s').
Proof.
  cbv zeta.
  assert (exists A E, serve1 r e w = signup A E e w \/
                      serve1 r e w = unregister A E e w) as (A & E & Hp)
    by (destruct r as [A E|A E]; exists A, E; auto).
  destruct (handler_store A E e w _ Hp)
    as [-> | (l & l' & Hl & Hl' & ->)]; [done|].
  split; [apply with_roster_keys|].
  split; [intros; by apply with_roster_field|].
  split; [apply with_roster_shaped|]. split.
  - intros Hnd. apply no_duplicate_with_roster; [done|].
    apply Hnd in Hl.
    destruct Hl' as [[-> HE] | (l1 & l2 & -> & HE & ->)].
    + apply NoDup_app. split; [done|]. split; [|apply NoDup_singleton].
      by intros x Hx ->%list_elem_of_singleton.
    + apply NoDup_app in Hl as (H1 & H12 & H2).
      apply NoDup_cons in H2 as [_ H2]. apply NoDup_app.
      split; [done|]. split; [|done].
      intros x Hx Hx2. apply (H12 x Hx). by right.
  - intros Hex. apply with_roster_exact; [done|].
    pose proof (participants_exact _ _ _ Hex Hl) as Hall.
    destruct Hl' as [[-> HE] | (l1 & l2 & -> & HE & ->)].
    + apply Forall_app. split; [done|]. by repeat constructor.
    + apply Forall_app in Hall as [Hl1 Hl2].
      apply Forall_cons in Hl2 as [_ Hl2]. by apply Forall_app.
Qed.

(** X10. However many signups and withdrawals are served, with saves that
    work or fail: no activity appears or disappears, the order of the
    activities stays, no field other than ["participants"] changes in any
    record, and a store that was of the data model, free of duplicates in
    its rosters, or writable by [json] without loss, still is. *)
Theorem serve_all_keeps rs w :
  let s := activities w in
  let s' := activities (run rs w) in
  keys_of s' = keys_of s /\
  (forall B fld, fld <> "participants" -> field_of s' B fld = field_of s B fld) /\
  (store_shaped s -> store_shaped s') /\
  (no_duplicate_rosters s -> no_duplicate_rosters s') /\
  (json_exact s -> json_exact s').
Proof.
  cbv zeta. revert w. induction rs as [|[r e] rs IH]; intros w; [done|].
  cbn [serve_all].
  destruct (IH (serve1 r e w).2) as (Hk & Hf & Hs & Hn & Hx).
  destruct (serve_keeps r e w) as (Hk1 & Hf1 & Hs1 & Hn1 & Hx1).
  split; [congruence|].
  split; [intros B fld Hfld; by rewrite Hf, Hf1|]. auto.
Qed.
End RunExtras.

(** ** More on loading, reloading and starting *)

Lemma default_activities_exact : json_exact _default_activities.
Proof.
  apply json_exact_dict.
  - refine (@bool_decide_unpack _ (NoDup_dec _) _). vm_compute. exact I.
  - repeat (apply Forall_cons; split;
            [apply (json_exact_activity (Build_Activity _ _ _ _))|]).
    apply Forall_nil_2.
Qed.

Section LoadExtras.
Context {content : Type}.
Variable empty_file : content.
Variable json_dumps : pyval -> content.
Variable json_loads : content -> option pyval.

Local Abbreviation save := (save_activities empty_file json_dumps).
Local Abbreviation load := (load_activities empty_file json_dumps json_loads).
Local Abbreviation reload := (reload_activities empty_file json_dumps json_loads).
Local Abbreviation start := (startup empty_file json_dumps json_loads).
Local Abbreviation signup := (signup_for_activity empty_file json_dumps).
Local Abbreviation unregister := (unregister_from_activity empty_file json_dumps).

(** X14. When the canonical file holds a text [json.load] accepts,
    [reload_activities] puts its value in the module global and leaves the
    directory alone, whatever the value is: for a dict the answer carries
    the number of its entries, and for a value without a length (null, a
    boolean, a number) the request ends in a [TypeError] with the global
    already replaced. *)
Theorem reload_takes_any_value e w c v :
  files w !! ACTIVITIES_FILE = Some c -> json_loads c = Some v ->
  activities (reload e w).2 = v /\
  files (reload e w).2 = files w /\
  log (reload e w).2 = log w /\
  (forall d, v = PyDict d ->
     (reload e w).1 = Ok (reloaded_message (Z.of_nat (length d)))) /\
  ((forall d, v <> PyDict d) -> (forall l, v <> PyList l) ->
   (forall s, v <> PyStr s) -> (reload e w).1 = Raise TypeError).
Proof.
  intros Hc Hv.
  rewrite reload_activities_run, load_activities_run, Hc.
  cbn [mbind option_bind]. rewrite Hv.
  destruct v as [| | | | s|l|d]; cbn [py_len fst snd activities files log];
    repeat split; try done.
  all: try (intros d' [= <-]; done).
  all: intros H1 H2 H3; try (by destruct (H3 s)); try (by destruct (H2 l));
    by destruct (H1 d).
Qed.

(** X15. When the canonical file is absent or its text is rejected,
    [reload_activities] falls back on the defaults: if they can be saved,
    they replace the store in memory whatever it held, the file holds
    their text and the answer counts nine activities; if they cannot, the
    [OSError] of the save is the answer and the store in memory stays. *)
Theorem reload_falls_back e w :
  files w !! ACTIVITIES_FILE ≫= json_loads = None ->
  (save_ok e (files w) ->
     (reload e w).1 = Ok (reloaded_message 9) /\
     activities (reload e w).2 = _default_activities /\
     files (reload e w).2
     = <[ACTIVITIES_FILE := json_dumps _default_activities]> (files w)) /\
  (~ save_ok e (files w) ->
     (reload e w).1 = Raise OSError /\
     activities (reload e w).2 = activities w).
Proof.
  intros Hbad. rewrite reload_activities_run, load_activities_run, Hbad.
  split.
  - intros Hok.
    destruct (save_activities_ok empty_file json_dumps _default_activities
                e w Hok) as [steps ->]. done.
  - intros Hno.
    pose proof (save_activities_fails empty_file json_dumps
                  _default_activities e w Hno) as Hr.
    pose proof (save_activities_global empty_file json_dumps
                  _default_activities e w) as Hg.
    destruct (save_activities _ _ _ _ _) as [[[]|x] w1]; simpl in *;
      [congruence|]. split; congruence.
Qed.

(** The standard library reads back what it wrote (see [LoadTheorems]). *)
Hypothesis json_roundtrip :
  forall v, json_exact v -> json_loads (json_dumps v) = Some v.

(** X16. A [load_activities] that returns can be repeated: the second one
    returns the same value and touches nothing, also when the first one
    had to write the defaults. *)
Theorem load_activities_twice e1 e2 w v :
  (load e1 w).1 = Ok v ->
  load e2 (load e1 w).2 = (Ok v, (load e1 w).2).
Proof.
  rewrite (load_activities_run _ _ _ e1 w).
  destruct (files w !! ACTIVITIES_FILE ≫= json_loads) as [v0|] eqn:Hfile.
  - cbn [fst snd]. intros [= ->]. by rewrite load_activities_run, Hfile.
  - destruct (save _default_activities e1 w) as [[[]|x] w1] eqn:Hsave;
      cbn [answer fst snd]; [|discriminate].
    intros [= <-].
    assert (Hok : save_ok e1 (files w)).
    { apply (save_activities_ok_inv empty_file json_dumps
               _default_activities e1 w). by rewrite Hsave. }
    destruct (save_activities_ok empty_file json_dumps _default_activities
                e1 w Hok) as [steps Hs].
    rewrite Hs in Hsave. injection Hsave as <-.
    rewrite load_activities_run. cbn [files].
    rewrite lookup_insert_eq. cbn [mbind option_bind].
    by rewrite json_roundtrip by apply default_activities_exact.
Qed.

(** X13. The start of the module, [activities = load_activities()]: when
    it returns, the store in memory, which is what [GET /activities]
    answers, is the value of the text in the canonical file; when it
    raises, it is the [OSError] of a save of the defaults that failed, the
    file was absent or rejected, and the global was not assigned. *)
Theorem startup_outcome e w :
  match (start e w).1 with
  | Ok _ =>
      files (start e w).2 !! ACTIVITIES_FILE ≫= json_loads
      = Some (activities (start e w).2) /\
      get_activities (start e w).2
      = (Ok (activities (start e w).2), (start e w).2)
  | Raise x =>
      x = OSError /\ ~ save_ok e (files w) /\
      files w !! ACTIVITIES_FILE ≫= json_loads = None /\
      activities (start e w).2 = activities w
  end.
Proof.
  unfold startup, bind. rewrite load_activities_run.
  destruct (files w !! ACTIVITIES_FILE ≫= json_loads) as [v0|] eqn:Hfile.
  - cbn [set_global fst snd activities files]. by rewrite Hfile.
  - pose proof (save_activities_global empty_file json_dumps
                  _default_activities e w) as Hg.
    destruct (save _default_activities e w) as [[[]|x] w1] eqn:Hsave;
      cbn [answer set_global fst snd activities files] in *.
    + assert (Hok : save_ok e (files w)).
      { apply (save_activities_ok_inv empty_file json_dumps
                 _default_activities e w). by rewrite Hsave. }
      destruct (save_activities_ok empty_file json_dumps _default_activities
                  e w Hok) as [steps Hs].
      rewrite Hs in Hsave. injection Hsave as <-. cbn [files].
      rewrite lookup_insert_eq. cbn [mbind option_bind].
      by rewrite json_roundtrip by apply default_activities_exact.
    + assert (Hx : (save _default_activities e w).1 = Raise x)
        by (by rewrite Hsave).
      split; [by apply save_activities_raises in Hx|].
      split; [|done].
      intros Hok.
      destruct (save_activities_ok empty_file json_dumps _default_activities
                  e w Hok) as [steps Hs]. congruence.
Qed.

(** X11. A change that was answered normally is durable: after a signup or
    a withdrawal that succeeded on a store [json] writes without loss, a
    [load_activities] (the next start of the server) returns the store
    that is in memory and leaves the directory alone. *)
Theorem handler_success_is_durable A E e e' w p body :
  json_exact (activities w) ->
  p = signup A E e w \/ p = unregister A E e w ->
  p.1 = Ok body ->
  load e' p.2 = (Ok (activities p.2), p.2).
Proof.
  intros Hex Hp Hok.
  assert (Hex' : json_exact (activities p.2)).
  { destruct Hp as [-> | ->].
    - by apply (serve_keeps empty_file json_dumps (Signup A E) e w).
    - by apply (serve_keeps empty_file json_dumps (Unregister A E) e w). }
  destruct (handler_cases empty_file json_dumps A E e w p Hp)
    as [[x ->]|(l & l' & b & _ & _ & ->)]; [discriminate|].
  destruct (committed_world empty_file json_dumps b
              (with_roster A l' (activities w)) e w) as (Hacts & _ & Hsaved).
  assert (Hsave_ok : save_ok e (files w)).
  { apply (save_activities_ok_inv empty_file json_dumps
             (with_roster A l' (activities w)) e
             (World (with_roster A l' (activities w)) (files w) (log w))).
    destruct (save _ e _) as [[[]|y] w1]; [done|discriminate]. }
  destruct (Hsaved Hsave_ok) as [_ Hfiles].
  rewrite load_activities_run, Hfiles, lookup_insert_eq.
  cbn [mbind option_bind]. rewrite Hacts in Hex' |- *.
  by rewrite json_roundtrip.
Qed.

(** X12. A signup whose save failed is in memory only, and a reload takes
    it back: when the canonical file held the text of the store before the
    signup, [reload_activities] after it restores that store and counts
    its activities. *)
Theorem reload_drops_unsaved_signup A E e1 e2 w l :
  files w !! ACTIVITIES_FILE = Some (json_dumps (activities w)) ->
  json_exact (activities w) ->
  participants_of (activities w) A = Some l -> PyStr E ∉ l ->
  ~ save_ok e1 (files w) ->
  (signup A E e1 w).1 = Raise OSError /\
  participants_of (activities (signup A E e1 w).2) A
  = Some (l ++ [PyStr E])%list /\
  activities (reload e2 (signup A E e1 w).2).2 = activities w /\
  (reload e2 (signup A E e1 w).2).1
  = Ok (reloaded_message (Z.of_nat (length (keys_of (activities w))))).
Proof.
  intros Hfile Hex Hl HE Hno.
  destruct (participants_of_inv _ _ _ Hl) as (d & f & Hd & HA & Hf).
  rewrite (signup_commits empty_file json_dumps A E e1 w d f l Hd HA Hf
             (proj2 (existsb_py_eq_str_false _ _) HE)). cbv zeta.
  set (store' := with_roster A (l ++ [PyStr E]) (activities w)).
  set (w0 := World store' (files w) (log w)).
  pose proof (save_activities_fails empty_file json_dumps store' e1 w0 Hno)
    as Hr.
  pose proof (save_activities_failed_canonical empty_file json_dumps
                store' e1 w0 OSError Hr) as Hcanon.
  pose proof (save_activities_global empty_file json_dumps store' e1 w0)
    as Hg.
  destruct (save store' e1 w0) as [[[]|x] w1] eqn:Hsave;
    cbn [answer fst snd] in *; [discriminate|].
  injection Hr as ->. split; [done|].
  split; [rewrite Hg; by eapply with_roster_participants|].
  rewrite reload_activities_run, load_activities_run, Hcanon.
  cbn [w0 files]. rewrite Hfile. cbn [mbind option_bind].
  rewrite json_roundtrip by done. rewrite Hd.
  cbn [py_len fst snd activities keys_of]. by rewrite length_fmap.
Qed.
End LoadExtras.

(** ** More days at the school: the theorems at work *)

Module SchoolDaysFacts.
Import DocCodec School SchoolDays.

Lemma calm_free (w : world document) :
  files w !! (DATA_DIR, "activitiesk3f9x2.tmp") = None -> save_ok calm (files w).
Proof. apply SchoolFacts.calm_lets_save_through. Qed.

Lemma disk_full_stops fs : ~ save_ok disk_full fs.
Proof. intros (_ & Hw & _). discriminate. Qed.

Lemma save_activities_spares_other_files_witness :
  (DATA_DIR, "notes.txt") <> ACTIVITIES_FILE /\
  files shared !! (DATA_DIR, "notes.txt") = Some (Text "remember the milk") /\
  files (save (PyList []) stuck shared).2 !! (DATA_DIR, "notes.txt")
  = Some (Text "remember the milk").
Proof.
  assert (Hne : (DATA_DIR, "notes.txt") <> ACTIVITIES_FILE) by discriminate.
  assert (Hc : files shared !! (DATA_DIR, "notes.txt")
               = Some (Text "remember the milk")) by reflexivity.
  split; [exact Hne|]. split; [exact Hc|].
  exact (save_activities_spares_other_files empty dumps (PyList []) stuck
           shared _ _ Hne Hc).
Defined.

Lemma save_activities_last_wins_witness :
  (save (PyList []) calm blank).1 = Ok tt /\
  (save PyNone calm (save (PyList []) calm blank).2).1 = Ok tt /\
  files (save PyNone calm (save (PyList []) calm blank).2).2
  = <[ACTIVITIES_FILE := dumps PyNone]> (files blank).
Proof.
  assert (H1 : (save (PyList []) calm blank).1 = Ok tt) by reflexivity.
  assert (H2 : (save PyNone calm (save (PyList []) calm blank).2).1 = Ok tt)
    by reflexivity.
  split; [exact H1|]. split; [exact H2|].
  exact (save_activities_last_wins empty dumps (PyList []) PyNone calm calm
           blank H1 H2).
Defined.

Lemma handler_success_is_on_disk_witness :
  (signup "Chess Club" "new@mergington.edu" calm fresh).1
  = Ok (signed_up_message "Chess Club" "new@mergington.edu") /\
  files (signup "Chess Club" "new@mergington.edu" calm fresh).2
    !! ACTIVITIES_FILE
  = Some (dumps (activities
                   (signup "Chess Club" "new@mergington.edu" calm fresh).2)).
Proof.
  assert (Hok : (signup "Chess Club" "new@mergington.edu" calm fresh).1
                = Ok (signed_up_message "Chess Club" "new@mergington.edu"))
    by reflexivity.
  split; [exact Hok|].
  exact (handler_success_is_on_disk empty dumps "Chess Club"
           "new@mergington.edu" calm fresh _ _ (or_introl eq_refl) Hok).
Defined.


Lemma handler_missing_participants_witness :
  alookup "participants" [("description", PyStr "Play go")] = None /\
  signup "Go Club" "bo@mergington.edu" calm rosterless
  = (Raise KeyError, rosterless).
Proof.
  split; [reflexivity|].
  apply (handler_missing_participants empty dumps "Go Club"
           "bo@mergington.edu" calm rosterless
           [("Go Club", PyDict [("description", PyStr "Play go")])]
           [("description", PyStr "Play go")]); reflexivity.
Defined.

Lemma handler_on_non_dict_witness :
  (forall d, activities listed <> PyDict d) /\
  (signup "Chess Club" "new@mergington.edu" calm listed).2 = listed.
Proof.
  assert (H : forall d, activities listed <> PyDict d) by discriminate.
  split; [exact H|].
  apply (handler_on_non_dict empty dumps "Chess Club" "new@mergington.edu"
           calm listed _ H (or_introl eq_refl)).
Defined.

Lemma unregister_removes_one_occurrence_witness :
  participants_of (activities doubled) "Go Club"
  = Some [PyStr "ana@mergington.edu"; PyStr "bo@mergington.edu";
          PyStr "ana@mergington.edu"] /\
  exists l',
    participants_of
      (activities (unregister "Go Club" "ana@mergington.edu" calm doubled).2)
      "Go Club" = Some l' /\
    S (length l') = 3%nat /\
    S (roster_count "ana@mergington.edu" l') = 2%nat.
Proof.
  split; [reflexivity|].
  apply (unregister_removes_one_occurrence empty dumps "Go Club"
           "ana@mergington.edu" calm doubled
           [PyStr "ana@mergington.edu"; PyStr "bo@mergington.edu";
            PyStr "ana@mergington.edu"]).
  - reflexivity.
  - apply SchoolFacts.new_student_present. reflexivity.
Defined.

Lemma signup_then_unregister_witness :
  save_ok calm (files fresh) /\
  save_ok calm
    (files (signup "Chess Club" "new@mergington.edu" calm fresh).2) /\
  activities
    (unregister "Chess Club" "new@mergington.edu" calm
       (signup "Chess Club" "new@mergington.edu" calm fresh).2).2
  = activities fresh.
Proof.
  assert (H1 : save_ok calm (files fresh)) by (apply calm_free; reflexivity).
  assert (H2 : save_ok calm
                 (files (signup "Chess Club" "new@mergington.edu"
                           calm fresh).2))
    by (apply calm_free; reflexivity).
  split; [exact H1|]. split; [exact H2|].
  destruct (signup_then_unregister empty dumps "Chess Club"
              "new@mergington.edu" calm calm fresh
              [PyStr "michael@mergington.edu"; PyStr "daniel@mergington.edu"])
    as (_ & _ & Hback & _).
  - reflexivity.
  - apply SchoolFacts.new_student_absent. reflexivity.
  - exact H1.
  - exact H2.
  - exact Hback.
Defined.

Lemma unregister_then_signup_witness :
  participants_of (activities fresh) "Chess Club"
  = Some ([] ++ PyStr "michael@mergington.edu"
             :: [PyStr "daniel@mergington.edu"])%list /\
  participants_of
    (activities
       (signup "Chess Club" "michael@mergington.edu" calm
          (unregister "Chess Club" "michael@mergington.edu" calm fresh).2).2)
    "Chess Club"
  = Some [PyStr "daniel@mergington.edu"; PyStr "michael@mergington.edu"].
Proof.
  split; [reflexivity|].
  apply (unregister_then_signup empty dumps "Chess Club"
           "michael@mergington.edu" calm calm fresh []
           [PyStr "daniel@mergington.edu"]).
  - reflexivity.
  - apply SchoolFacts.new_student_absent. reflexivity.
  - apply SchoolFacts.new_student_absent. reflexivity.
Defined.

Lemma handler_success_is_durable_witness :
  json_exact (activities fresh) /\
  (signup "Chess Club" "new@mergington.edu" calm fresh).1
  = Ok (signed_up_message "Chess Club" "new@mergington.edu") /\
  load disk_full (signup "Chess Club" "new@mergington.edu" calm fresh).2
  = (Ok (activities (signup "Chess Club" "new@mergington.edu" calm fresh).2),
     (signup "Chess Club" "new@mergington.edu" calm fresh).2).
Proof.
  assert (Hex : json_exact (activities fresh))
    by exact default_activities_exact.
  assert (Hok : (signup "Chess Club" "new@mergington.edu" calm fresh).1
                = Ok (signed_up_message "Chess Club" "new@mergington.edu"))
    by reflexivity.
  split; [exact Hex|]. split; [exact Hok|].
  exact (handler_success_is_durable empty dumps loads doc_roundtrip
           "Chess Club" "new@mergington.edu" calm disk_full fresh _ _
           Hex (or_introl eq_refl) Hok).
Defined.

Lemma reload_drops_unsaved_signup_witness :
  files fresh !! ACTIVITIES_FILE = Some (dumps (activities fresh)) /\
  ~ save_ok disk_full (files fresh) /\
  (signup "Chess Club" "new@mergington.edu" disk_full fresh).1
  = Raise OSError /\
  activities
    (reload calm
       (signup "Chess Club" "new@mergington.edu" disk_full fresh).2).2
  = activities fresh.
Proof.
  split; [reflexivity|]. split; [apply disk_full_stops|].
  destruct (reload_drops_unsaved_signup empty dumps loads doc_roundtrip
              "Chess Club" "new@mergington.edu" disk_full calm fresh
              [PyStr "michael@mergington.edu"; PyStr "daniel@mergington.edu"])
    as (Hr & _ & Hback & _).
  - reflexivity.
  - exact default_activities_exact.
  - reflexivity.
  - apply SchoolFacts.new_student_absent. reflexivity.
  - apply disk_full_stops.
  - split; [exact Hr|exact Hback].
Defined.

Lemma reload_takes_any_value_witness :
  files nulled !! ACTIVITIES_FILE = Some (Json PyNone) /\
  loads (Json PyNone) = Some PyNone /\
  activities (reload calm nulled).2 = PyNone /\
  (reload calm nulled).1 = Raise TypeError.
Proof.
  split; [reflexivity|]. split; [reflexivity|].
  destruct (reload_takes_any_value empty dumps loads calm nulled
              (Json PyNone) PyNone) as (Hacts & _ & _ & _ & Hlen).
  - reflexivity.
  - reflexivity.
  - split; [exact Hacts|]. apply Hlen; discriminate.
Defined.

Lemma reload_falls_back_witness :
  files torn !! ACTIVITIES_FILE ≫= loads = None /\
  save_ok calm (files torn) /\
  (reload calm torn).1 = Ok (reloaded_message 9).
Proof.
  assert (Hbad : files torn !! ACTIVITIES_FILE ≫= loads = None)
    by reflexivity.
  assert (Hok : save_ok calm (files torn)) by (apply calm_free; reflexivity).
  split; [exact Hbad|]. split; [exact Hok|].
  destruct (reload_falls_back empty dumps loads calm torn Hbad)
    as [Hsaved _].
  exact (proj1 (Hsaved Hok)).
Defined.

Lemma startup_outcome_witness :
  (forall v, json_exact v -> loads (dumps v) = Some v) /\
  files (start calm blank).2 !! ACTIVITIES_FILE ≫= loads
  = Some (activities (start calm blank).2).
Proof.
  split; [exact doc_roundtrip|].
  pose proof (startup_outcome empty dumps loads doc_roundtrip calm blank)
    as H.
  assert (Hs : (startup empty dumps loads calm blank).1 = Ok tt)
    by reflexivity.
  rewrite Hs in H. exact (proj1 H).
Defined.

Lemma load_activities_twice_witness :
  (load calm blank).1 = Ok _default_activities /\
  load stuck (load calm blank).2
  = (Ok _default_activities, (load calm blank).2).
Proof.
  assert (H1 : (load calm blank).1 = Ok _default_activities) by reflexivity.
  split; [exact H1|].
  exact (load_activities_twice empty dumps loads doc_roundtrip calm stuck
           blank _ H1).
Defined.

(** A day of requests, some of them with a full disk: the store keeps its
    nine activities in their order. *)
Lemma serve_all_keeps_witness :
  keys_of
    (activities
       (serve_all empty dumps
          [(Signup "Chess Club" "new@mergington.edu", calm);
           (Signup "Math Club" "new@mergington.edu", disk_full);
           (Unregister "Chess Club" "michael@mergington.edu", stuck);
           (Unregister "Drama Club" "nobody@mergington.edu", calm);
           (Signup "Knitting" "new@mergington.edu", calm)]
          fresh))
  = keys_of _default_activities.
Proof.
  exact (proj1 (serve_all_keeps empty dumps _ fresh)).
Defined.
End SchoolDaysFacts.
